(** * ASADataProcessor: the USL Championship data-enrichment pipeline

    A shallow embedding of [USL-Championship-Soccer-Data.py].  The script
    fetches tables from the American Soccer Analysis client and reshapes them
    with pandas.  The pandas operations the script calls are modelled first
    (module [pd]); the methods of [ASADataProcessor] follow, statement by
    statement, in the order of the source.

    Conventions of the model:
    - a cell holds a Python object: [VNaN] (a missing value), an integer, a
      string or a list; floating point statistics are not distinguished from
      integers;
    - a column header carries its label and whether its dtype is [category]
      (set by [astype('category')]); other dtypes are not tracked, so key
      columns of two merged tables are taken to have the same dtype;
    - the row index is not modelled: every frame the script builds carries a
      default or a filtered unique index;
    - an exception is represented by its class; every class here derives
      from [Exception], so every [except Exception] handler catches it;
    - [.copy()] is the identity, since no table is shared between variables. *)

From Stdlib Require Import ZArith.
From stdpp Require Import base gmap strings list.

Set Warnings "-register-all".

Open Scope string_scope.
Open Scope Z_scope.
Open Scope list_scope.

(** ** Python values and exceptions *)

(** The objects a cell can hold. *)
Inductive value : Type :=
| VNaN
| VInt (z : Z)
| VStr (s : string)
| VList (l : list value).

(** The exception classes of the script: those pandas and Python raise on
    the paths below, and [ClientError] for whatever the client raises. *)
Inductive exn : Type :=
| KeyError
| TypeError
| ValueError
| MergeError
| UnboundLocalError
| ClientError.

(** A value, or the exception raised instead. *)
Inductive result (A : Type) : Type :=
| Ok (a : A)
| Err (e : exn).

Arguments Ok {A} a.
Arguments Err {A} e.

Definition rbind {A B : Type} (r : result A) (k : A -> result B) : result B :=
  match r with
  | Ok a => k a
  | Err e => Err e
  end.

Notation "'let?' x ':=' r 'in' k" := (rbind r (fun x => k))
  (at level 10, x name, r at level 100, k at level 200).

#[global] Instance result_fmap : FMap result :=
  fun A B f r => match r with Ok a => Ok (f a) | Err e => Err e end.

Notation "r ;;; k" := (rbind r (fun _ => k))
  (at level 100, k at level 200, right associativity).

(** Structural equality of cells.  It is the equality a merge uses on keys
    (a missing key matches a missing key) and, against a string, the
    elementwise [==] of a column with a scalar. *)
Fixpoint value_eqb (a b : value) {struct a} : bool :=
  match a, b with
  | VNaN, VNaN => true
  | VInt x, VInt y => Z.eqb x y
  | VStr x, VStr y => String.eqb x y
  | VList x, VList y =>
      (fix go (x y : list value) {struct x} : bool :=
         match x, y with
         | [], [] => true
         | a :: x', b :: y' => value_eqb a b && go x' y'
         | _, _ => false
         end) x y
  | _, _ => false
  end.

(** Induction on cells, through the cells of a list. *)
Fixpoint value_induction (P : value -> Prop)
    (HNaN : P VNaN) (HInt : forall z, P (VInt z)) (HStr : forall s, P (VStr s))
    (HList : forall l, List.Forall P l -> P (VList l)) (v : value) {struct v} : P v :=
  match v with
  | VNaN => HNaN
  | VInt z => HInt z
  | VStr s => HStr s
  | VList l =>
      HList l
        ((fix go (l : list value) : List.Forall P l :=
            match l with
            | [] => @List.Forall_nil _ P
            | x :: l' =>
                @List.Forall_cons _ P x l'
                  (value_induction P HNaN HInt HStr HList x) (go l')
            end) l)
  end.

(** Whether no two cells of a list are equal. *)
Fixpoint distinct (vs : list value) : bool :=
  match vs with
  | [] => true
  | v :: vs' => negb (existsb (value_eqb v) vs') && distinct vs'
  end.

(** [isinstance(v, list)]; a list is the one unhashable object here. *)
Definition is_list (v : value) : bool :=
  match v with
  | VList _ => true
  | _ => false
  end.

(** Python's [a > b].  Numbers compare as numbers, NaN compares false with
    every number, strings compare by code point, lists lexicographically;
    operands of different kinds raise [TypeError]. *)
Fixpoint py_gt (a b : value) {struct a} : result bool :=
  match a, b with
  | VInt x, VInt y => Ok (Z.gtb x y)
  | VNaN, VNaN | VNaN, VInt _ | VInt _, VNaN => Ok false
  | VStr x, VStr y => Ok (String.ltb y x)
  | VList x, VList y =>
      (fix go (x y : list value) {struct x} : result bool :=
         match x, y with
         | [], _ => Ok false
         | _ :: _, [] => Ok true
         | a :: x', b :: y' => if value_eqb a b then go x' y' else py_gt a b
         end) x y
  | _, _ => Err TypeError
  end.

(** Python's [a < b] on the same objects. *)
Definition py_lt (a b : value) : result bool :=
  match a, b with
  | VInt x, VInt y => Ok (Z.ltb x y)
  | _, _ => py_gt b a
  end.

(** [s.endswith(suffix)] *)
Definition endswith (s suffix : string) : bool :=
  let n := String.length s in
  let m := String.length suffix in
  if (m <=? n)%nat then String.eqb (String.substring (n - m) m s) suffix else false.

(** ** Tables *)

(** A column header: the label and whether the dtype is [category]. *)
Record Column : Type := { label : string; categorical : bool }.

(** One column taken out of a table. *)
Record Series : Type := { s_categorical : bool; values : list value }.

(** A table: the headers, and the rows as lists of cells in header order. *)
Record DataFrame : Type := { columns : list Column; rows : list (list value) }.

(** A column of object or numeric dtype. *)
Definition plain (c : string) : Column := {| label := c; categorical := false |}.

(** [df.columns] *)
Definition labels (df : DataFrame) : list string := map label (columns df).

(** Every row has one cell per column. *)
Definition well_formed (df : DataFrame) : Prop :=
  Forall (fun r => length r = length (columns df)) (rows df).

(** [c in cs] *)
Definition mem (c : string) (cs : list string) : bool := existsb (String.eqb c) cs.

(** The position of the first column labelled [c]. *)
Fixpoint index_of (c : string) (cs : list string) : option nat :=
  match cs with
  | [] => None
  | c' :: cs' => if String.eqb c c' then Some 0%nat else S <$> index_of c cs'
  end.

(** The positions of all columns labelled [c], counted from [n]. *)
Fixpoint positions_from (n : nat) (c : string) (cs : list string) : list nat :=
  match cs with
  | [] => []
  | c' :: cs' =>
      if String.eqb c c' then n :: positions_from (S n) c cs'
      else positions_from (S n) c cs'
  end.

Definition positions (c : string) (cs : list string) : list nat := positions_from 0 c cs.

(** The cell of row [r] in column [i]. *)
Definition cell (i : nat) (r : list value) : value := nth i r VNaN.

Definition no_column : Column := plain "".

(** The elements of [l] at the positions where the mask [m] is true. *)
Fixpoint keep {A : Type} (m : list bool) (l : list A) : list A :=
  match m, l with
  | b :: m', x :: l' => if b then x :: keep m' l' else keep m' l'
  | _, _ => []
  end.

(** [Index.is_unique]: no label occurs twice. *)
Fixpoint unique (cs : list string) : bool :=
  match cs with
  | [] => true
  | c :: cs' => negb (mem c cs') && unique cs'
  end.

(** ** The pandas operations the script uses *)

Module pd.

(** [df[c]]: the column labelled [c]; [KeyError] when there is none.  With
    a repeated label pandas returns a frame; the model reads the first
    such column, and the theorems that depend on it assume distinct
    labels. *)
Definition getitem (df : DataFrame) (c : string) : result Series :=
  match index_of c (labels df) with
  | None => Err KeyError
  | Some i =>
      Ok {| s_categorical := categorical (nth i (columns df) no_column);
            values := map (cell i) (rows df) |}
  end.

(** One row after [df[c] = s]: the cells under label [c] are replaced. *)
Fixpoint set_cells (cs : list string) (c : string) (v : value) (r : list value)
  : list value :=
  match cs, r with
  | c' :: cs', x :: r' => (if String.eqb c c' then v else x) :: set_cells cs' c v r'
  | _, _ => r
  end.

(** [df[c] = s] for a series [s] computed from [df] itself: an existing
    column is overwritten in place, a new one is appended on the right.
    Series of another length raise [ValueError]. *)
Definition setitem (df : DataFrame) (c : string) (s : Series) : result DataFrame :=
  if negb (length (values s) =? length (rows df))%nat then Err ValueError
  else if mem c (labels df) then
    Ok {| columns :=
            map (fun col => if String.eqb c (label col)
                            then {| label := c; categorical := s_categorical s |}
                            else col) (columns df);
          rows := zip_with (set_cells (labels df) c) (values s) (rows df) |}
  else
    Ok {| columns := columns df ++ [{| label := c; categorical := s_categorical s |}];
          rows := zip_with (fun v r => r ++ [v]) (values s) (rows df) |}.

(** [df[c] = v] for a scalar [v]. *)
Definition setitem_scalar (df : DataFrame) (c : string) (v : value) : DataFrame :=
  if mem c (labels df) then
    {| columns := map (fun col => if String.eqb c (label col) then plain c else col)
                      (columns df);
       rows := map (set_cells (labels df) c v) (rows df) |}
  else
    {| columns := columns df ++ [plain c];
       rows := map (fun r => r ++ [v]) (rows df) |}.

(** [df[[c1, ..., cn]]]: the listed columns in the listed order;
    [KeyError] when a label is missing. *)
Definition select (df : DataFrame) (cs : list string) : result DataFrame :=
  if forallb (fun c => mem c (labels df)) cs then
    let idx := flat_map (fun c => positions c (labels df)) cs in
    Ok {| columns := map (fun i => nth i (columns df) no_column) idx;
          rows := map (fun r => map (fun i => cell i r) idx) (rows df) |}
  else Err KeyError.

(** [df.drop(columns=cs)]: [KeyError] when a label is missing. *)
Definition drop (df : DataFrame) (cs : list string) : result DataFrame :=
  if forallb (fun c => mem c (labels df)) cs then
    let m := map (fun c => negb (mem c cs)) (labels df) in
    Ok {| columns := keep m (columns df); rows := map (keep m) (rows df) |}
  else Err KeyError.

(** [df[mask]] for a boolean series [mask] computed from [df]. *)
Definition getitem_mask (df : DataFrame) (mask : list bool) : DataFrame :=
  {| columns := columns df; rows := keep mask (rows df) |}.

(** [s == v] and [s != v] against a scalar, elementwise. *)
Definition eq (s : Series) (v : value) : list bool :=
  map (fun x => value_eqb x v) (values s).

Definition ne (s : Series) (v : value) : list bool :=
  map (fun x => negb (value_eqb x v)) (values s).

(** [s.astype('category')]: the cells must be hashable. *)
Definition astype_category (s : Series) : result Series :=
  if existsb is_list (values s) then Err TypeError
  else Ok {| s_categorical := true; values := values s |}.

(** [s.apply(f)] for a function on cells. *)
Definition apply (s : Series) (f : value -> value) : Series :=
  {| s_categorical := false; values := map f (values s) |}.

(** [a + b] on two cells of object columns: pandas skips missing cells
    and applies Python's [+] to the others. *)
Definition add_cell (a b : value) : result value :=
  match a, b with
  | VNaN, _ | _, VNaN => Ok VNaN
  | VStr x, VStr y => Ok (VStr (x +:+ y))
  | VInt x, VInt y => Ok (VInt (x + y))
  | VList x, VList y => Ok (VList (x ++ y))
  | _, _ => Err TypeError
  end.

Fixpoint rmap {A B : Type} (f : A -> result B) (l : list A) : result (list B) :=
  match l with
  | [] => Ok []
  | x :: l' => let? y := f x in let? ys := rmap f l' in Ok (y :: ys)
  end.

(** [s + v] for a scalar [v]; a categorical column supports no arithmetic. *)
Definition add_scalar (s : Series) (v : value) : result Series :=
  if s_categorical s then Err TypeError
  else let? vs := rmap (fun x => add_cell x v) (values s) in
       Ok {| s_categorical := false; values := vs |}.

(** [s1 + s2] for two columns of one frame. *)
Definition add (s1 s2 : Series) : result Series :=
  if s_categorical s1 || s_categorical s2 then Err TypeError
  else let? vs := rmap (fun p => add_cell p.1 p.2) (zip (values s1) (values s2)) in
       Ok {| s_categorical := false; values := vs |}.

(** A row as [df.apply(f, axis=1)] hands it to [f]: cells under labels. *)
Definition Row : Type := list (string * value).

(** [row[c]] *)
Fixpoint row_getitem (row : Row) (c : string) : result value :=
  match row with
  | [] => Err KeyError
  | (c', v) :: row' => if String.eqb c c' then Ok v else row_getitem row' c
  end.

(** [df.apply(f, axis=1)], where [f] returns a string.  On a frame without
    rows pandas probes [f] with a row of missing values: when the probe
    returns, the result is an empty series; when it raises, the result is
    a copy of the frame, which the assignment to one column only accepts
    from a frame of one column. *)
Definition apply_rows (df : DataFrame) (f : Row -> result string) : result Series :=
  match rows df with
  | [] =>
      match f (zip (labels df) (replicate (length (columns df)) VNaN)) with
      | Ok _ => Ok {| s_categorical := false; values := [] |}
      | Err _ =>
          match columns df with
          | [c] => Ok {| s_categorical := categorical c; values := [] |}
          | _ => Err ValueError
          end
      end
  | rs =>
      let? vs := rmap (fun r => let? s := f (zip (labels df) r) in Ok (VStr s)) rs in
      Ok {| s_categorical := false; values := vs |}
  end.

(** One row of [df.explode(c)], [c] being column [i]: a list cell yields
    one row per element, an empty list one row with a missing cell. *)
Definition explode_row (i : nat) (r : list value) : list (list value) :=
  match cell i r with
  | VList [] => [<[i := VNaN]> r]
  | VList l => map (fun x => <[i := x]> r) l
  | _ => [r]
  end.

(** [df.explode(c)]: [ValueError] when the labels are not distinct,
    [KeyError] when [c] is missing; a column that is not of object dtype is
    left as it is. *)
Definition explode (df : DataFrame) (c : string) : result DataFrame :=
  if negb (unique (labels df)) then Err ValueError
  else match index_of c (labels df) with
       | None => Err KeyError
       | Some i =>
           if categorical (nth i (columns df) no_column) then Ok df
           else Ok {| columns := columns df;
                      rows := flat_map (explode_row i) (rows df) |}
       end.

Inductive how : Type := how_inner | how_left.

(** The renaming of an overlapping label by a suffix. *)
Definition renamer (to_rename : list string) (suffix : string) (c : string) : string :=
  if mem c to_rename then c +:+ suffix else c.

(** [Index.duplicated()]: every occurrence of a label but its first. *)
Fixpoint duplicated (seen cs : list string) : list bool :=
  match cs with
  | [] => []
  | c :: cs' => mem c seen :: duplicated (c :: seen) cs'
  end.

(** Labels that became duplicates through the suffix alone. *)
Definition suffix_clash (orig renamed : list string) : bool :=
  existsb id (zip_with (fun d d0 => d && negb d0)
                       (duplicated [] renamed) (duplicated [] orig)).

Definition relabel (ls : list string) (cs : list Column) : list Column :=
  zip_with (fun l c => {| label := l; categorical := categorical c |}) ls cs.

(** The columns of a merge: a label on both sides gets the side's suffix;
    two empty suffixes raise [ValueError], a suffix that creates a
    duplicate label within one side raises [MergeError]. *)
Definition merged_columns (lcols rcols : list Column) (suffixes : string * string)
    : result (list Column) :=
  let to_rename :=
    List.filter (fun c => mem c (map label rcols)) (map label lcols) in
  let llabels := map (renamer to_rename suffixes.1) (map label lcols) in
  let rlabels := map (renamer to_rename suffixes.2) (map label rcols) in
  match to_rename with
  | _ :: _ =>
      if String.eqb suffixes.1 "" && String.eqb suffixes.2 "" then Err ValueError
      else if suffix_clash (map label lcols) llabels
              || suffix_clash (map label rcols) rlabels
           then Err MergeError
           else Ok tt
  | [] => Ok tt
  end ;;;
  Ok (relabel llabels lcols ++ relabel rlabels rcols).

(** The rows a merge makes of the left row [l], given its partners: the
    right rows of equal key, in their order.  A row without a partner is
    kept with [width] missing values by a left join and dropped by an
    inner join. *)
Definition joined (h : how) (width : nat) (strip : list value -> list value)
    (l : list value) (partners : list (list value)) : list (list value) :=
  match partners with
  | [] =>
      match h with
      | how_left => [l ++ replicate width VNaN]
      | how_inner => []
      end
  | _ => map (fun r => l ++ strip r) partners
  end.

(** [pd.merge(left, right, left_on=.., right_on=.., how=.., suffixes=..)]
    on one key column per side, as pandas 2 computes it ([on=k] is
    [left_on=k, right_on=k]):
    - the key must label exactly one column of each side ([KeyError] when
      it is missing, [ValueError] when it is repeated), the right side
      being looked up first;
    - keys are hashed, so a list in a key column raises [TypeError];
    - when both keys have the same name the right key column is dropped;
    - the columns are those of the left table, then those of the right;
    - the rows follow the left table.
    Cells carry no dtype, so the check pandas makes on the dtypes of the two
    key columns is not modelled: where pandas raises [ValueError] for a key
    column of strings against a numeric or all-missing one, this function
    returns. *)
Definition merge (left right : DataFrame) (h : how) (left_on right_on : string)
    (suffixes : string * string) : result DataFrame :=
  match positions right_on (labels right), positions left_on (labels left) with
  | [], _ => Err KeyError
  | _ :: _ :: _, _ => Err ValueError
  | [_], [] => Err KeyError
  | [_], _ :: _ :: _ => Err ValueError
  | [j], [i] =>
      if existsb is_list (map (cell i) (rows left) ++ map (cell j) (rows right))
      then Err TypeError
      else
        let m := map (fun c => negb (String.eqb left_on right_on && String.eqb c right_on))
                     (labels right) in
        let? cols := merged_columns (columns left) (keep m (columns right)) suffixes in
        Ok {| columns := cols;
              rows :=
                flat_map
                  (fun l =>
                     joined h (length (keep m (columns right))) (keep m) l
                       (List.filter (fun r => value_eqb (cell i l) (cell j r))
                                    (rows right)))
                  (rows left) |}
  end.

(** [pd.DataFrame()] *)
Definition DataFrame : DataFrame := {| columns := []; rows := [] |}.

End pd.

(** ** The client, the log and the effects of a run *)

Module asa.

(** The American Soccer Analysis client, as the script uses it: four
    tables read as attributes and eleven requests that take a competition.
    Each of them returns a table or raises. *)
Record client : Type := {
  players : result DataFrame;
  teams : result DataFrame;
  stadia : result DataFrame;
  managers : result DataFrame;
  get_referees : string -> result DataFrame;
  get_team_goals_added : string -> result DataFrame;
  get_team_xgoals : string -> result DataFrame;
  get_team_xpass : string -> result DataFrame;
  get_goalkeeper_xgoals : string -> result DataFrame;
  get_goalkeeper_goals_added : string -> result DataFrame;
  get_player_goals_added : string -> result DataFrame;
  get_player_xgoals : string -> result DataFrame;
  get_player_xpass : string -> result DataFrame;
  get_games : string -> result DataFrame;
  get_game_xgoals : string -> result DataFrame
}.

End asa.

(** What a run leaves behind: the requests made to the client, in order,
    and the [logging.error] records, each with the text before the
    exception and the class of the exception. *)
Inductive event : Type :=
| Requested (what : string)
| Logged (message : string) (e : exn).

(** A computation that makes requests, logs, and returns or raises. *)
Definition M (A : Type) : Type := list event -> result A * list event.

Definition ret {A : Type} (a : A) : M A := fun t => (Ok a, t).

Definition raise {A : Type} (e : exn) : M A := fun t => (Err e, t).

Definition bind {A B : Type} (m : M A) (k : A -> M B) : M B :=
  fun t =>
    match m t with
    | (Ok a, t') => k a t'
    | (Err e, t') => (Err e, t')
    end.

Notation "'let*' x ':=' m 'in' k" := (bind m (fun x => k))
  (at level 10, x name, m at level 100, k at level 200).

Notation "m ;; k" := (bind m (fun _ => k))
  (at level 100, k at level 200, right associativity).

(** A pandas operation inside a run. *)
Definition lift {A : Type} (r : result A) : M A := fun t => (r, t).

(** [logging.error(f"<message>: {e}")] *)
Definition log_error (message : string) (e : exn) : M unit :=
  fun t => (Ok tt, t ++ [Logged message e]).

(** A read of the client: the request is recorded, then answered. *)
Definition request (what : string) (answer : result DataFrame) : M DataFrame :=
  fun t => (answer, t ++ [Requested what]).

(** [try: m  except Exception as e: handler e] *)
Definition try_except {A : Type} (m : M A) (handler : exn -> M A) : M A :=
  fun t =>
    match m t with
    | (Ok a, t') => (Ok a, t')
    | (Err e, t') => handler e t'
    end.

(** The outcome of [m], exception included, as a value. *)
Definition attempt {A : Type} (m : M A) : M (result A) :=
  fun t => let '(r, t') := m t in (Ok r, t').

(** A variable updated by a sequence of assignments inside one [try]: when
    an assignment raises, the variable keeps the value of the last
    assignment that returned, and the exception ends the sequence. *)
Fixpoint run_steps {A : Type} (steps : list (A -> result A)) (x : A) : A * option exn :=
  match steps with
  | [] => (x, None)
  | step :: steps' =>
      match step x with
      | Ok x' => run_steps steps' x'
      | Err e => (x, Some e)
      end
  end.

(** [try: x = step1(x); ...; x = stepn(x)  except Exception as e: log] *)
Definition guarded_steps {A : Type} (message : string) (steps : list (A -> result A))
    (x : A) : M A :=
  let '(x', raised) := run_steps steps x in
  match raised with
  | Some e => log_error message e ;; ret x'
  | None => ret x'
  end.

(** [for y in ys: x = body y x] *)
Fixpoint for_each {A B : Type} (ys : list B) (body : B -> A -> M A) (x : A) : M A :=
  match ys with
  | [] => ret x
  | y :: ys' => let* x' := body y x in for_each ys' body x'
  end.

(** A read of a local variable that an earlier [try] may have left
    unassigned. *)
Definition read {A : Type} (var : option A) : result A :=
  match var with
  | Some a => Ok a
  | None => Err UnboundLocalError
  end.

(** ** ASADataProcessor *)

Record ASADataProcessor : Type := { client : asa.client }.

Definition COMPETITION : string := "uslc".
Definition DUPLICATE_SUFFIX : string := "_dup".
Definition TEAM_ID : string := "team_id".
Definition PLAYER_ID : string := "player_id".
Definition STADIUM_ID : string := "stadium_id".
Definition MANAGER_ID : string := "manager_id".
Definition REFEREE_ID : string := "referee_id".
Definition HOME_TEAM_ID : string := "home_team_id".
Definition HOME_MANAGER_ID : string := "home_manager_id".
Definition AWAY_TEAM_ID : string := "away_team_id".
Definition AWAY_MANAGER_ID : string := "away_manager_id".
Definition GAME_ID : string := "game_id".

(** The suffixes of a merge that names none. *)
Definition default_suffixes : string * string := ("_x", "_y").

Definition calculate_result (row : pd.Row) : result string :=
  let? home_score := pd.row_getitem row "home_score" in
  let? away_score := pd.row_getitem row "away_score" in
  let? gt := py_gt home_score away_score in
  if gt then Ok "win"
  else
    let? home_score := pd.row_getitem row "home_score" in
    let? away_score := pd.row_getitem row "away_score" in
    let? lt := py_lt home_score away_score in
    if lt then Ok "loss" else Ok "draw".

Definition calculate_points (result : value) : Z :=
  if value_eqb result (VStr "win") then 3
  else if value_eqb result (VStr "draw") then 1
  else 0.

(** The lambda of [fetch_data] that turns the home result into the away
    result. *)
Definition away_result (x : value) : string :=
  if value_eqb x (VStr "loss") then "win"
  else if value_eqb x (VStr "win") then "loss"
  else "draw".

Definition add_player_names (df players_df : DataFrame) : result DataFrame :=
  let? names := pd.select players_df [PLAYER_ID; "player_name"] in
  pd.merge df names pd.how_left PLAYER_ID PLAYER_ID default_suffixes.

(** [s.dropna()] keeps every cell but the missing ones. *)
Definition notna (v : value) : bool :=
  match v with
  | VNaN => false
  | _ => true
  end.

Definition add_team_names (df teams_df : DataFrame) : result DataFrame :=
  let? has_list :=
    if mem TEAM_ID (labels df)
    then let? ids := pd.getitem df TEAM_ID in
         Ok (existsb is_list (List.filter notna (values ids)))
    else Ok false in
  if has_list then
    let? df_exploded := pd.explode df TEAM_ID in
    let? names := pd.select teams_df [TEAM_ID; "team_name"] in
    let? df_merged := pd.merge df_exploded names pd.how_left TEAM_ID TEAM_ID default_suffixes in
    Ok df_merged
  else
    let? names := pd.select teams_df [TEAM_ID; "team_name"] in
    pd.merge df names pd.how_left TEAM_ID TEAM_ID default_suffixes.

Definition add_stadium_names (df stadium_df : DataFrame) : result DataFrame :=
  let? names := pd.select stadium_df [STADIUM_ID; "stadium_name"] in
  pd.merge df names pd.how_left STADIUM_ID STADIUM_ID default_suffixes.

Definition add_manager_names (df managers_df : DataFrame) : result DataFrame :=
  let? names := pd.select managers_df [MANAGER_ID; "manager_name"] in
  pd.merge df names pd.how_left MANAGER_ID MANAGER_ID default_suffixes.

Definition add_referee_names (df referees_df : DataFrame) : result DataFrame :=
  let? names := pd.select referees_df [REFEREE_ID; "referee_name"] in
  pd.merge df names pd.how_left REFEREE_ID REFEREE_ID default_suffixes.

(** One of the three statements of [merge_team_statistics] that merge a
    statistics table: the labels to drop are read from [teams] as it is
    before the assignment, that is, before the merge. *)
Definition merge_statistics (statistics teams : DataFrame) : result DataFrame :=
  let? merged := pd.merge teams statistics pd.how_left TEAM_ID TEAM_ID ("", DUPLICATE_SUFFIX) in
  pd.drop merged (List.filter (fun col => endswith col DUPLICATE_SUFFIX) (labels teams)).

Definition expected_columns : list string := ["avg_vertical_distance_diff"].

(** [for col in expected_columns: if col not in teams.columns: teams[col] = 0] *)
Definition ensure_expected_columns (teams : DataFrame) : DataFrame :=
  fold_left (fun teams col => if mem col (labels teams) then teams
                              else pd.setitem_scalar teams col (VInt 0))
            expected_columns teams.

Definition merge_team_statistics (self : ASADataProcessor) (teams : DataFrame) : M DataFrame :=
  let* fetched :=
    attempt
      (let* team_goals_added :=
         request "get_team_goals_added" (asa.get_team_goals_added (client self) COMPETITION) in
       let* team_xgoals :=
         request "get_team_xgoals" (asa.get_team_xgoals (client self) COMPETITION) in
       let* team_xpass :=
         request "get_team_xpass" (asa.get_team_xpass (client self) COMPETITION) in
       ret (team_goals_added, team_xgoals, team_xpass)) in
  match fetched with
  | Err e =>
      log_error ("Error merging team statistics for " +:+ COMPETITION) e ;;
      ret teams
  | Ok (team_goals_added, team_xgoals, team_xpass) =>
      guarded_steps ("Error merging team statistics for " +:+ COMPETITION)
        [ merge_statistics team_goals_added;
          merge_statistics team_xgoals;
          merge_statistics team_xpass;
          fun teams => Ok (ensure_expected_columns teams) ]
        teams
  end.

(** The column lists of [fetch_data]. *)
Definition TEAM_COLUMNS : list string :=
  [ TEAM_ID; "team_name"; "team_short_name"; "team_abbreviation"; "competition"; "minutes"; "data";
    "count_games"; "shots_for"; "shots_against"; "goals_for"; "goals_against"; "goal_difference";
    "xgoals_for"; "xgoals_against"; "xgoal_difference"; "goal_difference_minus_xgoal_difference";
    "points"; "xpoints"; "attempted_passes_for"; "pass_completion_percentage_for";
    "xpass_completion_percentage_for"; "passes_completed_over_expected_for";
    "passes_completed_over_expected_p100_for"; "avg_vertical_distance_for";
    "attempted_passes_against"; "pass_completion_percentage_against";
    "xpass_completion_percentage_against"; "passes_completed_over_expected_against";
    "passes_completed_over_expected_p100_against"; "avg_vertical_distance_against";
    "passes_completed_over_expected_difference"; "avg_vertical_distance_diff" ].

Definition PLAYER_COLUMNS : list string :=
  [ "player_id"; "player_name"; "birth_date"; "nationality"; "height_ft"; "height_in"; "weight_lb";
    "primary_broad_position"; "primary_general_position"; "secondary_broad_position";
    "secondary_general_position";
    "team_id"; "team_name"; "season_name"; "competition"; "general_position"; "minutes_played"; "shots";
    "shots_on_target"; "goals"; "xgoals"; "xplace"; "goals_minus_xgoals"; "key_passes"; "primary_assists";
    "xassists"; "primary_assists_minus_xassists"; "xgoals_plus_xassists"; "points_added"; "xpoints_added";
    "attempted_passes"; "pass_completion_percentage"; "xpass_completion_percentage";
    "passes_completed_over_expected"; "passes_completed_over_expected_p100"; "avg_distance_yds";
    "avg_vertical_distance_yds"; "share_team_touches"; "count_games"; "data" ].

Definition GOALKEEPER_COLUMNS : list string :=
  PLAYER_COLUMNS ++
  [ "minutes_played"; "shots_faced"; "goals_conceded"; "saves"; "share_headed_shots"; "xgoals_gk_faced";
    "goals_minus_xgoals_gk"; "goals_divided_by_xgoals_gk" ].

Definition GAME_COLUMNS : list string :=
  [ "game_id"; "date_time_utc"; "season_name"; "matchday"; "match_name"; "attendance"; "knockout_game";
    "extra_time"; "penalties"; "home_penalties"; "away_penalties"; "expanded_minutes"; "home_team_id";
    "team_name_home"; "team_abbreviation_home"; "away_team_id"; "team_name_away"; "team_abbreviation_away";
    "home_score"; "away_score"; "home_goals"; "away_goals"; "home_team_xgoals"; "away_team_xgoals";
    "home_player_xgoals"; "away_player_xgoals"; "goal_difference"; "team_xgoal_difference";
    "player_xgoal_difference"; "final_score_difference"; "home_xpoints"; "away_xpoints"; "result_home";
    "points_home"; "result_away"; "points_away"; "referee_id"; "referee_name"; "stadium_id"; "stadium_name";
    "home_manager_id"; "manager_name_home"; "away_manager_id"; "manager_name_away" ].

(** [df[c] = df[c].astype('category')] *)
Definition to_category (c : string) (df : DataFrame) : result DataFrame :=
  let? s := pd.getitem df c in
  let? s' := pd.astype_category s in
  pd.setitem df c s'.

(** [attr[attr['competition'] == competition].copy()] for a table [attr]
    read from the client as an attribute (it is read twice). *)
Definition filter_competition (what : string) (attr : result DataFrame)
    (competition : string) : M DataFrame :=
  let* table := request what attr in
  let* table' := request what attr in
  let* column := lift (pd.getitem table' "competition") in
  ret (pd.getitem_mask table (pd.eq column (VStr competition))).

(** [try: x = m  except Exception as e: log; x = pd.DataFrame()] *)
Definition or_empty (message : string) (m : M DataFrame) : M DataFrame :=
  try_except m (fun e => log_error message e ;; ret pd.DataFrame).

(** The body of the loop that merges a player statistics table. *)
Definition merge_player_statistics (competition : string) (df players : DataFrame)
    : M DataFrame :=
  guarded_steps ("Error merging player data with <df> for " +:+ competition)
    [ fun players => pd.merge players df pd.how_left "player_id" "player_id" ("", "_dup");
      fun players => pd.select players
                       (List.filter (fun c => negb (endswith c "_dup")) (labels players)) ]
    players.

(** The body of the loop that merges a goalkeeper statistics table; no
    [try] guards it. *)
Definition merge_goalkeeper_statistics (df goalkeepers : DataFrame) : M DataFrame :=
  let* goalkeepers :=
    lift (pd.merge goalkeepers df pd.how_left PLAYER_ID PLAYER_ID ("", DUPLICATE_SUFFIX)) in
  lift (pd.select goalkeepers
          (List.filter (fun c => negb (endswith c DUPLICATE_SUFFIX)) (labels goalkeepers))).

(** The four assignments that compute results and points. *)
Definition set_result_home (games : DataFrame) : result DataFrame :=
  let? results := pd.apply_rows games calculate_result in
  pd.setitem games "result_home" results.

Definition set_points_home (games : DataFrame) : result DataFrame :=
  let? results := pd.getitem games "result_home" in
  pd.setitem games "points_home" (pd.apply results (fun x => VInt (calculate_points x))).

Definition set_result_away (games : DataFrame) : result DataFrame :=
  let? results := pd.getitem games "result_home" in
  pd.setitem games "result_away" (pd.apply results (fun x => VStr (away_result x))).

Definition set_points_away (games : DataFrame) : result DataFrame :=
  let? results := pd.getitem games "result_away" in
  pd.setitem games "points_away" (pd.apply results (fun x => VInt (calculate_points x))).

(** [games.merge(table[[key, name, ...]], left_on=.., right_on=key)]: no
    [how] is given, so pandas joins inner. *)
Definition merge_names (table : DataFrame) (cs : list string) (left_on right_on : string)
    (suffixes : string * string) (games : DataFrame) : result DataFrame :=
  let? names := pd.select table cs in
  pd.merge games names pd.how_inner left_on right_on suffixes.

(** The assignments to [games] that follow the request, inside the same
    [try]. *)
Definition enrich_games (stadium refs teams mgrs : DataFrame)
    : list (DataFrame -> result DataFrame) :=
  [ fun games => add_stadium_names games stadium;
    fun games => add_referee_names games refs;
    merge_names teams ["team_id"; "team_name"; "team_abbreviation"]
      HOME_TEAM_ID TEAM_ID default_suffixes;
    merge_names teams ["team_id"; "team_name"; "team_abbreviation"]
      AWAY_TEAM_ID TEAM_ID ("_home", "_away");
    merge_names mgrs ["manager_id"; "manager_name"]
      HOME_MANAGER_ID MANAGER_ID default_suffixes;
    merge_names mgrs ["manager_id"; "manager_name"]
      AWAY_MANAGER_ID MANAGER_ID ("_home", "_away");
    set_result_home;
    set_points_home;
    set_result_away;
    set_points_away ].

(** [games['match_name'] = games['team_abbreviation_home'] + " v " +
    games['team_abbreviation_away']] *)
Definition set_match_name (games : DataFrame) : result DataFrame :=
  let? home := pd.getitem games "team_abbreviation_home" in
  let? home_v := pd.add_scalar home (VStr " v ") in
  let? away := pd.getitem games "team_abbreviation_away" in
  let? name := pd.add home_v away in
  pd.setitem games "match_name" name.

(** A step on [games], a variable that may be unassigned. *)
Definition on_games (step : DataFrame -> result DataFrame) (games : option DataFrame)
    : result (option DataFrame) :=
  let? g := read games in
  let? g' := step g in
  Ok (Some g').

(** The split of [players] into field players and goalkeepers:
    [players[players['primary_broad_position'] != 'GK']] and
    [players[players['primary_broad_position'] == 'GK']]. *)
Definition split_players (players : DataFrame) : result (DataFrame * DataFrame) :=
  let? position := pd.getitem players "primary_broad_position" in
  let field_players := pd.getitem_mask players (pd.ne position (VStr "GK")) in
  let? position := pd.getitem players "primary_broad_position" in
  let goalkeepers := pd.getitem_mask players (pd.eq position (VStr "GK")) in
  Ok (field_players, goalkeepers).

Definition fetch_data (self : ASADataProcessor) (competition : string)
    : M (gmap string DataFrame) :=
  let data : gmap string DataFrame := ∅ in
  (* the first statement of the outer [try] replaces the argument *)
  let competition := COMPETITION in
  try_except
    (let* players :=
       or_empty ("Error fetching players data for " +:+ competition)
         (filter_competition "players" (asa.players (client self)) competition) in
     let* teams :=
       or_empty ("Error fetching teams data for " +:+ competition)
         (filter_competition "teams" (asa.teams (client self)) competition) in
     let* teams := merge_team_statistics self teams in
     let* teams := lift (to_category "team_name" teams) in
     let* teams := lift (to_category "team_abbreviation" teams) in
     let* teams := lift (pd.select teams TEAM_COLUMNS) in
     let* stadium :=
       or_empty ("Error fetching stadium data for " +:+ competition)
         (filter_competition "stadia" (asa.stadia (client self)) competition) in
     let* mgrs :=
       or_empty ("Error fetching managers data for " +:+ competition)
         (filter_competition "managers" (asa.managers (client self)) competition) in
     let* mgrs := lift (to_category "manager_name" mgrs) in
     let* refs :=
       or_empty ("Error fetching referees data for " +:+ competition)
         (request "get_referees" (asa.get_referees (client self) competition)) in
     let* refs := lift (to_category "referee_name" refs) in
     let* gk_xG :=
       or_empty ("Error processing goalkeeper xGoals for " +:+ competition)
         (let* gk_xG :=
            request "get_goalkeeper_xgoals"
              (asa.get_goalkeeper_xgoals (client self) competition) in
          let* gk_xG := lift (add_player_names gk_xG players) in
          lift (add_team_names gk_xG teams)) in
     let* gk_G_added :=
       or_empty ("Error fetching goalkeeper goals added for " +:+ competition)
         (request "get_goalkeeper_goals_added"
            (asa.get_goalkeeper_goals_added (client self) competition)) in
     let* player_G_added :=
       or_empty ("Error fetching player goals added for " +:+ competition)
         (request "get_player_goals_added"
            (asa.get_player_goals_added (client self) competition)) in
     let* player_xG :=
       or_empty ("Error fetching player xGoals for " +:+ competition)
         (request "get_player_xgoals" (asa.get_player_xgoals (client self) competition)) in
     let* player_xP :=
       or_empty ("Error fetching player xPass for " +:+ competition)
         (request "get_player_xpass" (asa.get_player_xpass (client self) competition)) in
     let* players :=
       for_each [player_G_added; player_xG; player_xP]
         (merge_player_statistics competition) players in
     let* players := lift (to_category "nationality" players) in
     let* players := lift (to_category "primary_broad_position" players) in
     let* players := lift (to_category "primary_general_position" players) in
     let* players := lift (to_category "secondary_broad_position" players) in
     let* players := lift (to_category "secondary_general_position" players) in
     let* players :=
       try_except
         (lift (let? exploded := pd.explode players "team_id" in
                add_team_names exploded teams))
         (fun e =>
            log_error ("Error enhancing player data with team information for "
                       +:+ competition) e ;;
            ret players) in
     let* players :=
       try_except
         (lift (pd.select players PLAYER_COLUMNS))
         (fun e =>
            log_error ("Error reorganizing player data for " +:+ competition) e ;;
            ret players) in
     let* split := lift (split_players players) in
     let field_players := split.1 in
     let goalkeepers := split.2 in
     let* goalkeepers :=
       for_each [gk_xG; gk_G_added] merge_goalkeeper_statistics goalkeepers in
     let* goalkeepers := lift (pd.select goalkeepers GOALKEEPER_COLUMNS) in
     (* from here on [games] is a variable that may be unassigned *)
     let* fetched := attempt (request "get_games" (asa.get_games (client self) COMPETITION)) in
     let* games :=
       match fetched with
       | Err e =>
           log_error ("Error processing games data for " +:+ competition) e ;;
           ret None
       | Ok games =>
           let* games :=
             guarded_steps ("Error processing games data for " +:+ competition)
               (enrich_games stadium refs teams mgrs) games in
           ret (Some games)
       end in
     let* games :=
       try_except
         (let* games_xG :=
            request "get_game_xgoals" (asa.get_game_xgoals (client self) competition) in
          lift (on_games
                  (fun games => pd.merge games games_xG pd.how_left GAME_ID GAME_ID ("", "_xG"))
                  games))
         (fun e =>
            log_error ("Error merging game xGoals data for " +:+ competition) e ;;
            ret games) in
     let* games :=
       guarded_steps
         ("Error creating match names or dropping columns for " +:+ competition)
         [ on_games set_match_name;
           on_games (fun games =>
                       pd.drop games ["date_time_utc_xG"; "home_team_id_xG";
                                      "away_team_id_xG"; "last_updated_utc"]) ]
         games in
     let* games :=
       guarded_steps
         ("Error selecting and renaming columns in games data for " +:+ competition)
         [ on_games (fun games => pd.select games GAME_COLUMNS) ]
         games in
     let* games := lift (read games) in
     ret (<["games" := games]>
          (<["players" := players]>
           (<["field_players" := field_players]>
            (<["goalkeepers" := goalkeepers]>
             (<["teams" := teams]>
              (<["stadium" := stadium]>
               (<["mgrs" := mgrs]>
                (<["refs" := refs]> ∅)))))))))
    (fun e =>
       log_error ("General error in fetch_data for " +:+ competition) e ;;
       ret data).

(** ** Sample tables

    A small client in the shape of the American Soccer Analysis tables: two
    teams of the competition and one of another, three players (one of them
    on two teams), four games.  The theorems below evaluate the pipeline on
    it. *)

Module Sample.

Definition frame (cs : list string) (rs : list (list value)) : DataFrame :=
  {| columns := map plain cs; rows := rs |}.

(** The given cells, then [n] statistics. *)
Definition filled (cells : list value) (n : nat) : list value :=
  cells ++ replicate n (VInt 1).

Definition teams : DataFrame :=
  frame ["team_id"; "team_name"; "team_short_name"; "team_abbreviation"; "competition"]
    [ [VStr "T1"; VStr "Team A"; VStr "TA"; VStr "A"; VStr "uslc"];
      [VStr "T2"; VStr "Team B"; VStr "TB"; VStr "B"; VStr "uslc"];
      [VStr "T3"; VStr "Team C"; VStr "TC"; VStr "C"; VStr "mls"] ].

Definition team_goals_added : DataFrame :=
  frame ["team_id"; "minutes"; "data"] [filled [VStr "T1"] 2; filled [VStr "T2"] 2].

Definition team_xgoals : DataFrame :=
  frame ["team_id"; "count_games"; "shots_for"; "shots_against"; "goals_for";
         "goals_against"; "goal_difference"; "xgoals_for"; "xgoals_against";
         "xgoal_difference"; "goal_difference_minus_xgoal_difference"; "points"; "xpoints"]
    [filled [VStr "T1"] 12; filled [VStr "T2"] 12].

Definition team_xpass : DataFrame :=
  frame ["team_id"; "competition"; "count_games"; "attempted_passes_for";
         "pass_completion_percentage_for"; "xpass_completion_percentage_for";
         "passes_completed_over_expected_for"; "passes_completed_over_expected_p100_for";
         "avg_vertical_distance_for"; "attempted_passes_against";
         "pass_completion_percentage_against"; "xpass_completion_percentage_against";
         "passes_completed_over_expected_against";
         "passes_completed_over_expected_p100_against"; "avg_vertical_distance_against";
         "passes_completed_over_expected_difference"; "avg_vertical_distance_difference"]
    [filled [VStr "T1"; VStr "uslc"] 15; filled [VStr "T2"; VStr "uslc"] 15].

Definition players : DataFrame :=
  frame ["player_id"; "player_name"; "birth_date"; "height_ft"; "height_in"; "weight_lb";
         "nationality"; "primary_broad_position"; "primary_general_position";
         "secondary_broad_position"; "secondary_general_position"; "season_name";
         "competition"]
    [ [VStr "P1"; VStr "Ann"; VStr "2000-01-01"; VInt 6; VInt 1; VInt 180; VStr "USA";
       VStr "GK"; VStr "GK"; VNaN; VNaN; VList [VStr "2023"]; VStr "uslc"];
      [VStr "P2"; VStr "Bob"; VStr "2001-02-02"; VInt 5; VInt 9; VInt 160; VStr "USA";
       VStr "FW"; VStr "ST"; VNaN; VNaN; VList [VStr "2023"]; VStr "uslc"];
      [VStr "P3"; VStr "Cy"; VStr "2002-03-03"; VInt 5; VInt 8; VInt 150; VStr "CAN";
       VNaN; VNaN; VNaN; VNaN; VList [VStr "2023"]; VStr "uslc"] ].

Definition player_goals_added : DataFrame :=
  frame ["player_id"; "team_id"; "general_position"; "minutes_played"; "data"]
    [ [VStr "P1"; VStr "T1"; VStr "GK"; VInt 90; VInt 1];
      [VStr "P2"; VList [VStr "T1"; VStr "T2"]; VStr "ST"; VInt 90; VInt 1] ].

Definition player_xgoals : DataFrame :=
  frame ["player_id"; "team_id"; "general_position"; "minutes_played"; "shots";
         "shots_on_target"; "goals"; "xgoals"; "xplace"; "goals_minus_xgoals"; "key_passes";
         "primary_assists"; "xassists"; "primary_assists_minus_xassists";
         "xgoals_plus_xassists"; "points_added"; "xpoints_added"]
    [ filled [VStr "P1"; VStr "T1"; VStr "GK"] 14;
      filled [VStr "P2"; VList [VStr "T1"; VStr "T2"]; VStr "ST"] 14 ].

Definition player_xpass : DataFrame :=
  frame ["player_id"; "team_id"; "general_position"; "minutes_played"; "attempted_passes";
         "pass_completion_percentage"; "xpass_completion_percentage";
         "passes_completed_over_expected"; "passes_completed_over_expected_p100";
         "avg_distance_yds"; "avg_vertical_distance_yds"; "share_team_touches";
         "count_games"]
    [ filled [VStr "P1"; VStr "T1"; VStr "GK"] 10;
      filled [VStr "P2"; VList [VStr "T1"; VStr "T2"]; VStr "ST"] 10 ].

Definition goalkeeper_xgoals : DataFrame :=
  frame ["player_id"; "team_id"; "minutes_played"; "shots_faced"; "goals_conceded";
         "saves"; "share_headed_shots"; "xgoals_gk_faced"; "goals_minus_xgoals_gk";
         "goals_divided_by_xgoals_gk"]
    [filled [VStr "P1"; VStr "T1"] 8].

Definition goalkeeper_goals_added : DataFrame :=
  frame ["player_id"; "team_id"; "minutes_played"; "data"] [filled [VStr "P1"; VStr "T1"] 2].

Definition stadia : DataFrame :=
  frame ["stadium_id"; "stadium_name"; "competition"]
    [[VStr "S1"; VStr "Park"; VStr "uslc"]].

Definition managers : DataFrame :=
  frame ["manager_id"; "manager_name"; "competition"]
    [ [VStr "M1"; VStr "Max"; VStr "uslc"]; [VStr "M2"; VStr "Mia"; VStr "uslc"] ].

Definition referees : DataFrame :=
  frame ["referee_id"; "referee_name"] [[VStr "R1"; VStr "Rex"]].

(** [G1] resolves every reference; [G2] names a stadium and a referee that
    no table holds; [G3] has no away manager; [G4] names a home team that
    the teams table does not hold. *)
Definition games : DataFrame :=
  frame ["game_id"; "date_time_utc"; "home_score"; "away_score"; "home_team_id";
         "away_team_id"; "referee_id"; "stadium_id"; "home_manager_id"; "away_manager_id";
         "expanded_minutes"; "season_name"; "matchday"; "attendance"; "knockout_game";
         "last_updated_utc"; "extra_time"; "penalties"; "home_penalties"; "away_penalties"]
    [ filled [VStr "G1"; VStr "2023-03-11"; VInt 2; VInt 1; VStr "T1"; VStr "T2";
              VStr "R1"; VStr "S1"; VStr "M1"; VStr "M2"] 10;
      filled [VStr "G2"; VStr "2023-03-12"; VInt 0; VInt 0; VStr "T2"; VStr "T1";
              VStr "R9"; VStr "S9"; VStr "M2"; VStr "M1"] 10;
      filled [VStr "G3"; VStr "2023-03-13"; VInt 0; VInt 3; VStr "T2"; VStr "T1";
              VStr "R1"; VStr "S1"; VStr "M2"; VNaN] 10;
      filled [VStr "G4"; VStr "2023-03-14"; VInt 1; VInt 0; VStr "T9"; VStr "T1";
              VStr "R1"; VStr "S1"; VStr "M1"; VStr "M2"] 10 ].

Definition game_xgoals : DataFrame :=
  frame ["game_id"; "date_time_utc"; "home_team_id"; "home_goals"; "home_team_xgoals";
         "home_player_xgoals"; "away_team_id"; "away_goals"; "away_team_xgoals";
         "away_player_xgoals"; "goal_difference"; "team_xgoal_difference";
         "player_xgoal_difference"; "final_score_difference"; "home_xpoints";
         "away_xpoints"]
    [ filled [VStr "G1"; VStr "2023-03-11"; VStr "T1"] 13;
      filled [VStr "G2"; VStr "2023-03-12"; VStr "T2"] 13 ].

(** The client that answers with the tables above, but for the three
    answers given as arguments. *)
Definition client_with (the_teams xgoals the_games : result DataFrame) : asa.client :=
  {| asa.players := Ok players;
     asa.teams := the_teams;
     asa.stadia := Ok stadia;
     asa.managers := Ok managers;
     asa.get_referees := fun _ => Ok referees;
     asa.get_team_goals_added := fun _ => Ok team_goals_added;
     asa.get_team_xgoals := fun _ => xgoals;
     asa.get_team_xpass := fun _ => Ok team_xpass;
     asa.get_goalkeeper_xgoals := fun _ => Ok goalkeeper_xgoals;
     asa.get_goalkeeper_goals_added := fun _ => Ok goalkeeper_goals_added;
     asa.get_player_goals_added := fun _ => Ok player_goals_added;
     asa.get_player_xgoals := fun _ => Ok player_xgoals;
     asa.get_player_xpass := fun _ => Ok player_xpass;
     asa.get_games := fun _ => the_games;
     asa.get_game_xgoals := fun _ => Ok game_xgoals |}.

(** Every request is answered. *)
Definition processor : ASADataProcessor :=
  {| client := client_with (Ok teams) (Ok team_xgoals) (Ok games) |}.

(** The request for the teams table raises. *)
Definition without_teams : ASADataProcessor :=
  {| client := client_with (Err ClientError) (Ok team_xgoals) (Ok games) |}.

(** The request for the expected goals of the teams raises. *)
Definition without_team_xgoals : ASADataProcessor :=
  {| client := client_with (Ok teams) (Err ClientError) (Ok games) |}.

(** The request for the games raises. *)
Definition without_games : ASADataProcessor :=
  {| client := client_with (Ok teams) (Ok team_xgoals) (Err ClientError) |}.

(** A request that is answered for one competition only. *)
Definition only_for (competition : string) (table : DataFrame)
    : string -> result DataFrame :=
  fun c => if String.eqb c competition then Ok table else Err ClientError.

(** The client that answers like [processor] for "uslc" and raises for
    every other competition. *)
Definition uslc_only : ASADataProcessor :=
  {| client :=
       {| asa.players := Ok players;
          asa.teams := Ok teams;
          asa.stadia := Ok stadia;
          asa.managers := Ok managers;
          asa.get_referees := only_for "uslc" referees;
          asa.get_team_goals_added := only_for "uslc" team_goals_added;
          asa.get_team_xgoals := only_for "uslc" team_xgoals;
          asa.get_team_xpass := only_for "uslc" team_xpass;
          asa.get_goalkeeper_xgoals := only_for "uslc" goalkeeper_xgoals;
          asa.get_goalkeeper_goals_added := only_for "uslc" goalkeeper_goals_added;
          asa.get_player_goals_added := only_for "uslc" player_goals_added;
          asa.get_player_xgoals := only_for "uslc" player_xgoals;
          asa.get_player_xpass := only_for "uslc" player_xpass;
          asa.get_games := only_for "uslc" games;
          asa.get_game_xgoals := only_for "uslc" game_xgoals |} |}.

(** The teams of the competition, as [fetch_data] hands them to
    [merge_team_statistics]. *)
Definition uslc_teams : DataFrame :=
  pd.getitem_mask teams [true; true; false].

(** One player on two teams, before the expansion. *)
Definition two_team_player : DataFrame :=
  frame ["player_id"; "player_name"; "team_id"]
    [[VStr "P2"; VStr "Bob"; VList [VStr "T1"; VStr "T2"]]].

(** One game won 2-1 by the home team. *)
Definition game_2_1 : DataFrame :=
  frame ["game_id"; "home_team_id"; "away_team_id"; "home_score"; "away_score"]
    [[VStr "G1"; VInt 1; VInt 2; VInt 2; VInt 1]].

End Sample.

(** * Notions used in the statements *)

(** The cell of a row under a label, as [calculate_result] reads it. *)
Definition at_label (df : DataFrame) (r : list value) (c : string) : result value :=
  pd.row_getitem (zip (labels df) r) c.

(** The four assignments of [fetch_data] that add the result and the points
    of both sides to the games. *)
Definition results_and_points : list (DataFrame -> result DataFrame) :=
  [set_result_home; set_points_home; set_result_away; set_points_away].

(** Whether row [r] has "GK" in column [i]. *)
Definition is_goalkeeper (i : nat) (r : list value) : bool :=
  value_eqb (cell i r) (VStr "GK").

(** The players of the sample after the merges: one goalkeeper, one forward
    and one player without a position. *)
Definition sample_positions : DataFrame :=
  Sample.frame ["player_id"; "primary_broad_position"]
    [[VStr "P1"; VStr "GK"]; [VStr "P2"; VStr "FW"]; [VStr "P3"; VNaN]].

Definition team_statistics_message : string :=
  "Error merging team statistics for " +:+ COMPETITION.

(** The requests of [merge_team_statistics], in the order it makes them. *)
Definition team_statistics_requests : list event :=
  [Requested "get_team_goals_added"; Requested "get_team_xgoals";
   Requested "get_team_xpass"].

(** Two clients give the same responses for a competition: the same four
    tables, and the same answer to each request made with the competition. *)
Definition same_responses (competition : string) (a b : asa.client) : Prop :=
  asa.players a = asa.players b /\
  asa.teams a = asa.teams b /\
  asa.stadia a = asa.stadia b /\
  asa.managers a = asa.managers b /\
  asa.get_referees a competition = asa.get_referees b competition /\
  asa.get_team_goals_added a competition = asa.get_team_goals_added b competition /\
  asa.get_team_xgoals a competition = asa.get_team_xgoals b competition /\
  asa.get_team_xpass a competition = asa.get_team_xpass b competition /\
  asa.get_goalkeeper_xgoals a competition = asa.get_goalkeeper_xgoals b competition /\
  asa.get_goalkeeper_goals_added a competition =
    asa.get_goalkeeper_goals_added b competition /\
  asa.get_player_goals_added a competition = asa.get_player_goals_added b competition /\
  asa.get_player_xgoals a competition = asa.get_player_xgoals b competition /\
  asa.get_player_xpass a competition = asa.get_player_xpass b competition /\
  asa.get_games a competition = asa.get_games b competition /\
  asa.get_game_xgoals a competition = asa.get_game_xgoals b competition.


(** The table a step returns, the empty table when it raises. *)
Definition returned (r : result DataFrame) : DataFrame :=
  match r with
  | Ok df => df
  | Err _ => pd.DataFrame
  end.

(** Whether the cells of column [c] are pairwise different. *)
Definition distinct_column (df : DataFrame) (c : string) : bool :=
  match pd.getitem df c with
  | Ok s => distinct (values s)
  | Err _ => false
  end.

(** The number of rows [explode] makes of a row with cell [v] in the
    exploded column. *)
Definition teams_of (v : value) : nat :=
  match v with
  | VList ((_ :: _) as l) => length l
  | _ => 1
  end.

(** The position of the column labelled [c], 0 when there is none. *)
Definition position (df : DataFrame) (c : string) : nat :=
  default 0%nat (index_of c (labels df)).

(** The message of the outer handler of [fetch_data]. *)
Definition general_error_message : string :=
  "General error in fetch_data for " +:+ COMPETITION.

(** The mapping [fetch_data] builds from its eight tables. *)
Definition tables (games players field_players goalkeepers teams stadium mgrs refs : DataFrame)
    : gmap string DataFrame :=
  <["games" := games]>
    (<["players" := players]>
       (<["field_players" := field_players]>
          (<["goalkeepers" := goalkeepers]>
             (<["teams" := teams]>
                (<["stadium" := stadium]>
                   (<["mgrs" := mgrs]>
                      (<["refs" := refs]> ∅))))))).

(** The keys of a result that is not empty. *)
Definition result_keys : list string :=
  ["games"; "players"; "field_players"; "goalkeepers"; "teams"; "stadium"; "mgrs"; "refs"].

(** The mapping a run returned, the empty one when it raised. *)
Definition mapping (o : result (gmap string DataFrame) * list event)
    : gmap string DataFrame :=
  match o.1 with
  | Ok data => data
  | Err _ => ∅
  end.

(** The client whose managers table cannot be read. *)
Definition without_managers : ASADataProcessor :=
  {| client :=
       {| asa.players := asa.players (client Sample.processor);
          asa.teams := asa.teams (client Sample.processor);
          asa.stadia := asa.stadia (client Sample.processor);
          asa.managers := Err ClientError;
          asa.get_referees := asa.get_referees (client Sample.processor);
          asa.get_team_goals_added := asa.get_team_goals_added (client Sample.processor);
          asa.get_team_xgoals := asa.get_team_xgoals (client Sample.processor);
          asa.get_team_xpass := asa.get_team_xpass (client Sample.processor);
          asa.get_goalkeeper_xgoals := asa.get_goalkeeper_xgoals (client Sample.processor);
          asa.get_goalkeeper_goals_added :=
            asa.get_goalkeeper_goals_added (client Sample.processor);
          asa.get_player_goals_added := asa.get_player_goals_added (client Sample.processor);
          asa.get_player_xgoals := asa.get_player_xgoals (client Sample.processor);
          asa.get_player_xpass := asa.get_player_xpass (client Sample.processor);
          asa.get_games := asa.get_games (client Sample.processor);
          asa.get_game_xgoals := asa.get_game_xgoals (client Sample.processor) |} |}.

(** The client whose goals added of the goalkeepers cannot be requested. *)
Definition without_goalkeeper_goals_added : ASADataProcessor :=
  {| client :=
       {| asa.players := asa.players (client Sample.processor);
          asa.teams := asa.teams (client Sample.processor);
          asa.stadia := asa.stadia (client Sample.processor);
          asa.managers := asa.managers (client Sample.processor);
          asa.get_referees := asa.get_referees (client Sample.processor);
          asa.get_team_goals_added := asa.get_team_goals_added (client Sample.processor);
          asa.get_team_xgoals := asa.get_team_xgoals (client Sample.processor);
          asa.get_team_xpass := asa.get_team_xpass (client Sample.processor);
          asa.get_goalkeeper_xgoals := asa.get_goalkeeper_xgoals (client Sample.processor);
          asa.get_goalkeeper_goals_added := fun _ => Err ClientError;
          asa.get_player_goals_added := asa.get_player_goals_added (client Sample.processor);
          asa.get_player_xgoals := asa.get_player_xgoals (client Sample.processor);
          asa.get_player_xpass := asa.get_player_xpass (client Sample.processor);
          asa.get_games := asa.get_games (client Sample.processor);
          asa.get_game_xgoals := asa.get_game_xgoals (client Sample.processor) |} |}.

(** Whether no label ends with the duplicate marker. *)
Definition no_duplicate_marker (df : DataFrame) : Prop :=
  Forall (fun c => endswith c "_dup" = false) (labels df).

(** Whether no cell is a list that holds a list. *)
Definition flat_cells (vs : list value) : bool :=
  forallb (fun v => match v with
                    | VList l => negb (existsb is_list l)
                    | _ => true
                    end) vs.

(** Whether column [c] of [df], when there is one, holds no nested list. *)
Definition flat_column (df : DataFrame) (c : string) : bool :=
  match pd.getitem df c with
  | Ok s => flat_cells (values s)
  | Err _ => true
  end.

(** * Properties *)

(** ** Cells, labels and positions *)

Lemma value_eqb_eq (a b : value) : value_eqb a b = true <-> a = b.
Proof.
  revert b. induction a as [|x|x|l IH] using value_induction; intros [|y|y|l']; cbn;
    try (split; [discriminate|discriminate]); try tauto.
  - rewrite Z.eqb_eq. split; congruence.
  - rewrite String.eqb_eq. split; congruence.
  - revert l'. induction IH as [|x l Hx _ IHl]; intros [|y l']; cbn;
      try (split; [discriminate|discriminate]); try tauto.
    rewrite andb_true_iff, Hx, IHl. split.
    + intros [-> [= ->]]. reflexivity.
    + intros [= -> ->]. split; reflexivity.
Qed.

Lemma index_of_lt (c : string) (cs : list string) (i : nat) :
  index_of c cs = Some i -> (i < length cs)%nat.
Proof.
  revert i. induction cs as [|c' cs IH]; intros i; cbn; [discriminate|].
  destruct (String.eqb c c').
  - intros [= <-]. lia.
  - destruct (index_of c cs) as [i'|]; cbn; [|discriminate].
    intros [= <-]. specialize (IH i' eq_refl). lia.
Qed.

Lemma index_of_mem (c : string) (cs : list string) (i : nat) :
  index_of c cs = Some i -> mem c cs = true.
Proof.
  revert i. unfold mem. induction cs as [|c' cs IH]; intros i; cbn; [discriminate|].
  destruct (String.eqb c c'); [reflexivity|].
  destruct (index_of c cs) as [i'|]; cbn; [|discriminate].
  intros _. now apply (IH i').
Qed.

Lemma index_of_label (c : string) (cols : list Column) (i : nat) :
  index_of c (map label cols) = Some i -> label (nth i cols no_column) = c.
Proof.
  revert i. induction cols as [|col cols IH]; intros i; cbn; [discriminate|].
  destruct (String.eqb c (label col)) eqn:E.
  - intros [= <-]. symmetry. now apply String.eqb_eq.
  - destruct (index_of c (map label cols)) as [i'|]; cbn; [|discriminate].
    intros [= <-]. now apply IH.
Qed.

Lemma positions_from_absent (n : nat) (c : string) (cs : list string) :
  mem c cs = false -> positions_from n c cs = [].
Proof.
  revert n. unfold mem. induction cs as [|c' cs IH]; intros n; cbn; [reflexivity|].
  destruct (String.eqb c c'); [discriminate|]. apply IH.
Qed.

Lemma positions_from_unique (n : nat) (c : string) (cs : list string) (i : nat) :
  unique cs = true -> index_of c cs = Some i -> positions_from n c cs = [(n + i)%nat].
Proof.
  revert n i. induction cs as [|c' cs IH]; intros n i; cbn; [discriminate|].
  intros [Hc Hu]%andb_true_iff. destruct (String.eqb c c') eqn:E.
  - intros [= <-]. apply String.eqb_eq in E as ->.
    rewrite positions_from_absent by now apply negb_true_iff.
    now rewrite Nat.add_0_r.
  - destruct (index_of c cs) as [i'|]; cbn; [|discriminate].
    intros [= <-]. rewrite (IH (S n) i' Hu eq_refl). f_equal. lia.
Qed.

Lemma positions_unique (c : string) (cs : list string) (i : nat) :
  unique cs = true -> index_of c cs = Some i -> positions c cs = [i].
Proof. apply (positions_from_unique 0). Qed.

Lemma cell_insert (i : nat) (x : value) (r : list value) :
  (i < length r)%nat -> cell i (<[i := x]> r) = x.
Proof.
  unfold cell. revert i. induction r as [|y r IH]; intros [|i]; cbn; try lia.
  - reflexivity.
  - intros H. apply IH. lia.
Qed.

Lemma keep_map_filter {A : Type} (f : A -> bool) (l : list A) :
  keep (map f l) l = List.filter f l.
Proof.
  induction l as [|x l IH]; [reflexivity|].
  cbn. destruct (f x); now rewrite IH.
Qed.

Lemma filter_complement_perm {A : Type} (f : A -> bool) (l : list A) :
  List.filter f l ++ List.filter (fun x => negb (f x)) l ≡ₚ l.
Proof.
  induction l as [|x l IH]; [reflexivity|].
  cbn. destruct (f x); cbn.
  - now apply Permutation_skip.
  - rewrite <- Permutation_middle. now apply Permutation_skip.
Qed.

(** In a table with distinct keys a key has at most one partner. *)
Lemma partners_distinct (key : list value -> value) (x : value) (l : list (list value)) :
  distinct (map key l) = true ->
  (length (List.filter (fun r => value_eqb x (key r)) l) <= 1)%nat.
Proof.
  induction l as [|r l IH]; cbn; [lia|].
  intros [Hr Hd]%andb_true_iff. specialize (IH Hd).
  destruct (value_eqb x (key r)) eqn:E; [|exact IH].
  apply value_eqb_eq in E as ->. cbn.
  assert (List.filter (fun r0 => value_eqb (key r) (key r0)) l = []) as ->; [|cbn; lia].
  apply negb_true_iff in Hr. clear -Hr.
  induction l as [|r0 l IH]; cbn in *; [reflexivity|].
  apply orb_false_iff in Hr as [-> Hr]. now apply IH.
Qed.

(** ** The rows of an assignment to a column *)

Lemma row_getitem_set (cs : list string) (c : string) (v : value) (r : list value) :
  mem c cs = true -> length r = length cs ->
  pd.row_getitem (zip cs (pd.set_cells cs c v r)) c = Ok v.
Proof.
  unfold mem. revert r. induction cs as [|c' cs IH]; intros [|x r]; cbn; try discriminate.
  intros H [= Hlen]. destruct (String.eqb c c') eqn:E; [reflexivity|].
  cbn in H. now apply IH.
Qed.

Lemma row_getitem_set_other (cs : list string) (c c' : string) (v : value) (r : list value) :
  c' <> c ->
  pd.row_getitem (zip cs (pd.set_cells cs c v r)) c' = pd.row_getitem (zip cs r) c'.
Proof.
  intros Hne. revert r. induction cs as [|c0 cs IH]; intros [|x r]; cbn; try reflexivity.
  destruct (String.eqb c' c0) eqn:E.
  - apply String.eqb_eq in E as <-.
    assert (String.eqb c c' = false) as -> by (apply String.eqb_neq; congruence).
    reflexivity.
  - apply IH.
Qed.

Lemma length_set_cells (cs : list string) (c : string) (v : value) (r : list value) :
  length (pd.set_cells cs c v r) = length r.
Proof.
  revert r. induction cs as [|c0 cs IH]; intros [|x r]; cbn; try reflexivity.
  now rewrite IH.
Qed.

Lemma row_getitem_append (cs : list string) (c : string) (v : value) (r : list value) :
  mem c cs = false -> length r = length cs ->
  pd.row_getitem (zip (cs ++ [c]) (r ++ [v])) c = Ok v.
Proof.
  unfold mem. revert r. induction cs as [|c' cs IH]; intros [|x r]; cbn; try discriminate.
  - intros _ _. now rewrite String.eqb_refl.
  - intros H [= Hlen]. destruct (String.eqb c c'); [discriminate|]. now apply IH.
Qed.

Lemma row_getitem_append_other (cs : list string) (c c' : string) (v : value)
    (r : list value) :
  c' <> c -> length r = length cs ->
  pd.row_getitem (zip (cs ++ [c]) (r ++ [v])) c' = pd.row_getitem (zip cs r) c'.
Proof.
  intros Hne. revert r. induction cs as [|c0 cs IH]; intros [|x r]; cbn; try discriminate.
  - intros _. now apply String.eqb_neq in Hne as ->.
  - intros [= Hlen]. destruct (String.eqb c' c0); [reflexivity|]. now apply IH.
Qed.

Lemma row_getitem_cell (cs : list string) (c : string) (i : nat) (r : list value) :
  index_of c cs = Some i -> length r = length cs ->
  pd.row_getitem (zip cs r) c = Ok (cell i r).
Proof.
  revert i r. induction cs as [|c' cs IH]; intros i [|x r]; cbn; try discriminate.
  intros H [= Hlen]. destruct (String.eqb c c'); [now injection H as <-|].
  destruct (index_of c cs) as [i'|]; cbn in H; [|discriminate].
  injection H as <-. now apply IH.
Qed.

Lemma labels_replaced (c : string) (b : bool) (cols : list Column) :
  map label (map (fun col => if String.eqb c (label col)
                             then {| label := c; categorical := b |} else col) cols)
  = map label cols.
Proof.
  induction cols as [|col cols IH]; [reflexivity|]. cbn. rewrite IH. f_equal.
  destruct (String.eqb c (label col)) eqn:E; [|reflexivity].
  now apply String.eqb_eq in E.
Qed.

(** The rows of [df[c] = s]: each row of [df] with one cell of [s]. *)
Lemma setitem_spec (df df' : DataFrame) (c : string) (s : Series) :
  well_formed df ->
  pd.setitem df c s = Ok df' ->
  well_formed df' /\
  exists f : value -> list value -> list value,
    rows df' = zip_with f (values s) (rows df) /\
    forall v r, length r = length (columns df) ->
      at_label df' (f v r) c = Ok v /\
      forall c', c' <> c -> at_label df' (f v r) c' = at_label df r c'.
Proof.
  intros Hwf. unfold pd.setitem.
  destruct (length (values s) =? length (rows df))%nat eqn:Hlen; [|discriminate].
  apply Nat.eqb_eq in Hlen. cbn [negb].
  destruct (mem c (labels df)) eqn:Hmem; intros [= <-].
  - split.
    + unfold well_formed in *. cbn [rows columns]. rewrite length_map.
      clear Hlen. revert Hwf. generalize (values s).
      induction (rows df) as [|r rs IH]; intros [|v vs] H; cbn; try constructor.
      * rewrite length_set_cells. now apply Forall_cons in H as [? ?].
      * apply IH. now apply Forall_cons in H as [? ?].
    + exists (pd.set_cells (labels df) c). split; [reflexivity|].
      intros v r Hr. unfold at_label.
      match goal with
      | |- context [labels ?d] =>
          assert (Hl : labels d = labels df) by apply labels_replaced
      end.
      rewrite Hl. split.
      * apply row_getitem_set; [exact Hmem|]. unfold labels. now rewrite length_map.
      * intros c' Hne. now apply row_getitem_set_other.
  - split.
    + unfold well_formed in *. cbn [rows columns]. rewrite length_app. cbn [length].
      clear Hlen. revert Hwf. generalize (values s).
      induction (rows df) as [|r rs IH]; intros [|v vs] H; cbn; try constructor.
      * rewrite length_app. cbn. apply Forall_cons in H as [? ?]. lia.
      * apply IH. now apply Forall_cons in H as [? ?].
    + exists (fun v r => r ++ [v]). split; [reflexivity|].
      intros v r Hr. unfold at_label.
      match goal with
      | |- context [labels ?d] =>
          assert (Hl : labels d = labels df ++ [c]) by apply map_app
      end.
      rewrite Hl.
      assert (length r = length (labels df)) by (unfold labels; now rewrite length_map).
      split.
      * now apply row_getitem_append.
      * intros c' Hne. now apply row_getitem_append_other.
Qed.

Lemma getitem_spec (df : DataFrame) (c : string) (s : Series) :
  well_formed df ->
  pd.getitem df c = Ok s ->
  Forall2 (fun v r => at_label df r c = Ok v) (values s) (rows df).
Proof.
  intros Hwf. unfold pd.getitem.
  destruct (index_of c (labels df)) as [i|] eqn:Hi; [|discriminate].
  intros [= <-]. cbn [values]. unfold well_formed in Hwf.
  induction Hwf as [|r rs Hr _ IH]; cbn; constructor; [|exact IH].
  apply row_getitem_cell; [exact Hi|]. unfold labels. now rewrite length_map.
Qed.

Lemma rmap_spec {A B : Type} (f : A -> result B) (l : list A) (ys : list B) :
  pd.rmap f l = Ok ys -> Forall2 (fun y x => f x = Ok y) ys l.
Proof.
  revert ys. induction l as [|x l IH]; cbn; intros ys.
  - intros [= <-]. constructor.
  - destruct (f x) as [y|] eqn:E; [|discriminate]. cbn.
    destruct (pd.rmap f l) as [ys'|]; [|discriminate]. cbn.
    intros [= <-]. constructor; [exact E|]. now apply IH.
Qed.

Lemma apply_rows_spec (df : DataFrame) (f : pd.Row -> result string) (s : Series) :
  pd.apply_rows df f = Ok s ->
  Forall2 (fun v r => exists x, f (zip (labels df) r) = Ok x /\ v = VStr x)
          (values s) (rows df).
Proof.
  unfold pd.apply_rows. destruct (rows df) as [|r rs] eqn:E.
  - destruct (f _); [intros [= <-]; constructor|].
    destruct (columns df) as [|? [|? ?]]; try discriminate.
    intros [= <-]. constructor.
  - destruct (pd.rmap _ (r :: rs)) as [vs|] eqn:Hvs; [|discriminate].
    intros [= <-]. cbn [values]. apply rmap_spec in Hvs.
    eapply Forall2_impl; [exact Hvs|]. cbn. intros v r0 H.
    destruct (f (zip (labels df) r0)) as [x|]; [|discriminate].
    injection H as <-. eauto.
Qed.

(** A row of [df[c] = s], when the cells of [s] are related to the rows of
    [df] one by one. *)
Lemma setitem_rows (R : value -> list value -> Prop) (df df' : DataFrame) (c : string)
    (s : Series) :
  well_formed df ->
  Forall2 R (values s) (rows df) ->
  pd.setitem df c s = Ok df' ->
  well_formed df' /\
  forall r', r' ∈ rows df' ->
    exists v r, R v r /\ r ∈ rows df /\ at_label df' r' c = Ok v /\
                forall c', c' <> c -> at_label df' r' c' = at_label df r c'.
Proof.
  intros Hwf HR Hset.
  destruct (setitem_spec _ _ _ _ Hwf Hset) as (Hwf' & f & Hrows & Hf).
  split; [exact Hwf'|]. rewrite Hrows. clear Hrows Hset.
  unfold well_formed in Hwf.
  induction HR as [|v r vs rs Hv _ IH]; cbn; intros r' Hin.
  - now apply elem_of_nil in Hin.
  - apply Forall_cons in Hwf as [Hr Hwf].
    apply elem_of_cons in Hin as [-> | Hin].
    + exists v, r. destruct (Hf v r Hr) as [H1 H2].
      repeat split; [exact Hv | left | exact H1 | exact H2].
    + destruct (IH Hwf r' Hin) as (v0 & r0 & ? & ? & ? & ?).
      exists v0, r0. repeat split; [assumption | now right | assumption | assumption].
Qed.

(** A column computed cell by cell from another one:
    [df[dst] = df[src].apply(g)]. *)
Lemma derived_column (df df' : DataFrame) (src dst : string) (g : value -> value) :
  well_formed df ->
  (let? s := pd.getitem df src in pd.setitem df dst (pd.apply s g)) = Ok df' ->
  well_formed df' /\
  forall r', r' ∈ rows df' ->
    exists r x, r ∈ rows df /\ at_label df r src = Ok x /\
                at_label df' r' dst = Ok (g x) /\
                forall c', c' <> dst -> at_label df' r' c' = at_label df r c'.
Proof.
  intros Hwf. destruct (pd.getitem df src) as [s|] eqn:Hs; [|discriminate].
  cbn [rbind]. intros Hset.
  pose proof (getitem_spec _ _ _ Hwf Hs) as Hcol.
  destruct (setitem_rows (fun v r => exists x, at_label df r src = Ok x /\ v = g x)
              df df' dst (pd.apply s g) Hwf) as [Hwf' Hrows]; [|exact Hset|].
  - cbn [pd.apply values]. apply Forall2_fmap_l.
    eapply Forall2_impl; [exact Hcol|]. cbn. eauto.
  - split; [exact Hwf'|]. intros r' Hin.
    destruct (Hrows r' Hin) as (v & r & (x & Hx & ->) & Hr & Hdst & Hother).
    exists r, x. auto.
Qed.

(** ** Merges *)





Lemma select_two (df : DataFrame) (key name : string) (j k : nat) :
  unique (labels df) = true ->
  index_of key (labels df) = Some j ->
  index_of name (labels df) = Some k ->
  pd.select df [key; name] =
    Ok {| columns := [{| label := key;
                         categorical := categorical (nth j (columns df) no_column) |};
                      {| label := name;
                         categorical := categorical (nth k (columns df) no_column) |}];
          rows := map (fun r => [cell j r; cell k r]) (rows df) |}.
Proof.
  intros Hu Hj Hk. unfold pd.select. cbn [forallb].
  rewrite (index_of_mem _ _ _ Hj), (index_of_mem _ _ _ Hk). cbn [andb flat_map].
  rewrite (positions_unique _ _ _ Hu Hj), (positions_unique _ _ _ Hu Hk).
  cbn [app map]. do 3 f_equal.
  - pose proof (index_of_label _ _ _ Hj) as H.
    destruct (nth j (columns df) no_column). cbn in *. now subst.
  - pose proof (index_of_label _ _ _ Hk) as H.
    destruct (nth k (columns df) no_column). cbn in *. now subst.
Qed.


(** A merge whose left table has no columns raises. *)
Lemma merge_statistics_empty (statistics : DataFrame) :
  exists e, merge_statistics statistics pd.DataFrame = Err e.
Proof.
  unfold merge_statistics, pd.merge. cbn.
  destruct (positions TEAM_ID (labels statistics)) as [|j [|j' js]]; cbn; eauto.
Qed.

(** ** Runs *)

Section Runs.

Context {A B : Type}.

Lemma try_except_bind_ok (m : M A) (k : A -> M B) (h : exn -> M B) (t t' : list event)
    (a : A) :
  m t = (Ok a, t') -> try_except (bind m k) h t = try_except (k a) h t'.
Proof. intros H. unfold try_except, bind. now rewrite H. Qed.

Lemma try_except_bind_err (m : M A) (k : A -> M B) (h : exn -> M B) (t t' : list event)
    (e : exn) :
  m t = (Err e, t') -> try_except (bind m k) h t = h e t'.
Proof. intros H. unfold try_except, bind. now rewrite H. Qed.

Lemma bind_ok (m : M A) (k : A -> M B) (t t' : list event) (a : A) :
  m t = (Ok a, t') -> bind m k t = k a t'.
Proof. intros H. unfold bind. now rewrite H. Qed.

End Runs.

(** Every event of a concrete list satisfies a disjunction of shapes. *)
Ltac each_event :=
  repeat (apply Forall_cons_2;
          [first [left; reflexivity | right; eauto | reflexivity | eauto]|]);
  apply Forall_nil_2.

(** A guarded read of a dimension returns a table, whatever the client
    does, and leaves nothing but its own requests and log record. *)
Lemma or_empty_filter_competition (message what : string) (attr : result DataFrame)
    (competition : string) (t : list event) :
  exists (df : DataFrame) (evs : list event),
    or_empty message (filter_competition what attr competition) t = (Ok df, t ++ evs) /\
    Forall (fun ev => ev = Requested what \/ exists e, ev = Logged message e) evs /\
    (forall e, attr = Err e ->
               df = pd.DataFrame /\ evs = [Requested what; Logged message e]).
Proof.
  unfold or_empty, try_except, filter_competition, bind, request, lift, log_error, ret.
  destruct attr as [df|e]; cbn.
  - destruct (pd.getitem df "competition") as [col|e'].
    + eexists _, [_; _]. rewrite <- !app_assoc. split; [reflexivity|].
      split; [each_event|intros ? [=]].
    + eexists _, [_; _; _]. rewrite <- !app_assoc. split; [reflexivity|].
      split; [each_event|intros ? [=]].
  - eexists _, [_; _]. rewrite <- !app_assoc. split; [reflexivity|].
    split; [each_event|]. intros ? [= <-]. split; reflexivity.
Qed.

(** Without a teams table [merge_team_statistics] returns the empty table
    it was given: either a request raises, or the first merge does, since
    the empty table has no "team_id". *)
Lemma merge_team_statistics_empty (self : ASADataProcessor) (t : list event) :
  exists evs : list event,
    merge_team_statistics self pd.DataFrame t = (Ok pd.DataFrame, t ++ evs) /\
    Forall (fun ev => ev = Requested "get_team_goals_added" \/
                      ev = Requested "get_team_xgoals" \/
                      ev = Requested "get_team_xpass" \/
                      exists e, ev = Logged team_statistics_message e) evs.
Proof.
  unfold merge_team_statistics, attempt, bind, request, log_error, ret.
  destruct (asa.get_team_goals_added (client self) COMPETITION) as [ga|e1].
  2:{ eexists [_; _]. rewrite <- !app_assoc. split; [reflexivity|].
      apply Forall_cons_2; [tauto|]. apply Forall_cons_2; [|apply Forall_nil_2].
      right. right. right. eauto. }
  destruct (asa.get_team_xgoals (client self) COMPETITION) as [xg|e2].
  2:{ eexists [_; _; _]. rewrite <- !app_assoc. split; [reflexivity|].
      do 2 (apply Forall_cons_2; [tauto|]). apply Forall_cons_2; [|apply Forall_nil_2].
      right. right. right. eauto. }
  destruct (asa.get_team_xpass (client self) COMPETITION) as [xp|e3].
  2:{ eexists [_; _; _; _]. rewrite <- !app_assoc. split; [reflexivity|].
      do 3 (apply Forall_cons_2; [tauto|]). apply Forall_cons_2; [|apply Forall_nil_2].
      right. right. right. eauto. }
  destruct (merge_statistics_empty ga) as [e He].
  unfold guarded_steps, run_steps. rewrite He.
  unfold bind, log_error, ret.
  eexists [_; _; _; _]. rewrite <- !app_assoc. split; [reflexivity|].
  do 3 (apply Forall_cons_2; [tauto|]). apply Forall_cons_2; [|apply Forall_nil_2].
  right. right. right. eauto.
Qed.

(** One statement of the outer [try]: either it raises, and the outer
    handler returns the empty mapping, or the run goes on. *)
Ltac next_statement :=
  lazymatch goal with
  | |- (try_except (bind ?m ?k) ?h ?t).1 = _ =>
      let a := fresh "a" in
      let e := fresh "e" in
      let t' := fresh "t" in
      let E := fresh "E" in
      destruct (m t) as [[a|e] t'] eqn:E;
      [ rewrite (try_except_bind_ok _ _ _ _ _ _ E); cbv beta
      | rewrite (try_except_bind_err _ _ _ _ _ _ E); reflexivity ]
  end.

(** One statement that finds [games] unassigned and leaves it so. *)
Ltac unbound_statement :=
  lazymatch goal with
  | |- (try_except (bind ?m _) _ ?t0).1 = _ =>
      erewrite (try_except_bind_ok m _ _ t0 _ None) by reflexivity
  end.

(** ** Results and points *)

Lemma calculate_result_cases (row : pd.Row) (r : string) :
  calculate_result row = Ok r -> r = "win" \/ r = "loss" \/ r = "draw".
Proof.
  unfold calculate_result, rbind.
  destruct (pd.row_getitem row "home_score") as [h|]; [|discriminate].
  destruct (pd.row_getitem row "away_score") as [a|]; [|discriminate].
  destruct (py_gt h a) as [[|]|]; [| |discriminate].
  - intros [= <-]. now left.
  - destruct (py_lt h a) as [[|]|]; [| |discriminate]; intros [= <-]; auto.
Qed.

Lemma away_result_complementary (result_home : string) :
  result_home = "win" \/ result_home = "loss" \/ result_home = "draw" ->
  let result_away := away_result (VStr result_home) in
  let points_home := calculate_points (VStr result_home) in
  let points_away := calculate_points (VStr result_away) in
  (result_home = "win" -> result_away = "loss") /\
  (result_home = "loss" -> result_away = "win") /\
  (result_home <> "win" -> result_home <> "loss" ->
   result_home = "draw" /\ result_away = "draw") /\
  (result_home = "draw" /\ result_away = "draw" -> points_home + points_away = 2) /\
  (~ (result_home = "draw" /\ result_away = "draw") -> points_home + points_away = 3).
Proof.
  intros [-> | [-> | ->]];
    cbv zeta; change (away_result (VStr "win")) with "loss";
    change (away_result (VStr "loss")) with "win";
    change (away_result (VStr "draw")) with "draw";
    (split; [|split; [|split; [|split]]]); intros; try reflexivity;
    try discriminate; try tauto;
    match goal with Hd : _ /\ _ |- _ => destruct Hd; discriminate end.
Qed.

(** C1.  In every row of a games table (well formed, with distinct
    labels), once the four assignments of [fetch_data] have added the
    results and the points, "result_home" and
    "result_away" are complementary: a home win is an away loss, a home loss
    is an away win, and in every other case both are a draw; "points_home"
    and "points_away" add up to 2 when both results are a draw and to 3
    otherwise. *)
Theorem results_complementary (games enriched : DataFrame) :
  well_formed games ->
  unique (labels games) = true ->
  run_steps results_and_points games = (enriched, None) ->
  forall r, r ∈ rows enriched ->
    exists (result_home result_away : string) (points_home points_away : Z),
      at_label enriched r "result_home" = Ok (VStr result_home) /\
      at_label enriched r "result_away" = Ok (VStr result_away) /\
      at_label enriched r "points_home" = Ok (VInt points_home) /\
      at_label enriched r "points_away" = Ok (VInt points_away) /\
      (result_home = "win" -> result_away = "loss") /\
      (result_home = "loss" -> result_away = "win") /\
      (result_home <> "win" -> result_home <> "loss" ->
       result_home = "draw" /\ result_away = "draw") /\
      (result_home = "draw" /\ result_away = "draw" -> points_home + points_away = 2) /\
      (~ (result_home = "draw" /\ result_away = "draw") -> points_home + points_away = 3).
Proof.
  intros Hwf _ Hrun r4 Hr4. unfold results_and_points, run_steps in Hrun.
  destruct (set_result_home games) as [g1|] eqn:H1; [|discriminate].
  destruct (set_points_home g1) as [g2|] eqn:H2; [|discriminate].
  destruct (set_result_away g2) as [g3|] eqn:H3; [|discriminate].
  destruct (set_points_away g3) as [g4|] eqn:H4; [|discriminate].
  injection Hrun as <-.
  unfold set_result_home in H1.
  destruct (pd.apply_rows games calculate_result) as [s1|] eqn:Hs1; [|discriminate].
  cbn [rbind] in H1.
  destruct (setitem_rows _ _ _ _ _ Hwf (apply_rows_spec _ _ _ Hs1) H1) as [Hwf1 Hg1].
  destruct (derived_column _ _ _ _ _ Hwf1 H2) as [Hwf2 Hg2].
  destruct (derived_column _ _ _ _ _ Hwf2 H3) as [Hwf3 Hg3].
  destruct (derived_column _ _ _ _ _ Hwf3 H4) as [_ Hg4].
  destruct (Hg4 r4 Hr4) as (r3 & y & Hr3 & Hy & Hpa & H43).
  destruct (Hg3 r3 Hr3) as (r2 & x3 & Hr2 & Hx3 & Hra & H32).
  destruct (Hg2 r2 Hr2) as (r1 & x2 & Hr1 & Hx2 & Hph & H21).
  destruct (Hg1 r1 Hr1) as (v & r0 & (rh & Hrh & ->) & _ & Hv & _).
  rewrite Hv in Hx2. injection Hx2 as <-.
  rewrite H21, Hv in Hx3 by discriminate. injection Hx3 as <-.
  rewrite Hra in Hy. injection Hy as <-.
  exists rh, (away_result (VStr rh)),
    (calculate_points (VStr rh)), (calculate_points (VStr (away_result (VStr rh)))).
  split; [rewrite H43, H32, H21 by discriminate; exact Hv|].
  split; [rewrite H43 by discriminate; exact Hra|].
  split; [rewrite H43, H32 by discriminate; exact Hph|].
  split; [exact Hpa|].
  apply away_result_complementary. eapply calculate_result_cases, Hrh.
Qed.

Lemma results_complementary_witness :
  exists (result_home result_away : string) (points_home points_away : Z),
    at_label (run_steps results_and_points Sample.game_2_1).1
      [VStr "G1"; VInt 1; VInt 2; VInt 2; VInt 1; VStr "win"; VInt 3; VStr "loss"; VInt 0]
      "result_home" = Ok (VStr result_home) /\
    result_home = "win" /\ result_away = "loss" /\ points_home + points_away = 3.
Proof.
  assert (Hwf : well_formed Sample.game_2_1) by (repeat constructor).
  destruct (results_complementary Sample.game_2_1
              (run_steps results_and_points Sample.game_2_1).1 Hwf eq_refl eq_refl
              [VStr "G1"; VInt 1; VInt 2; VInt 2; VInt 1;
               VStr "win"; VInt 3; VStr "loss"; VInt 0])
    as (rh & ra & ph & pa & Hrh & _ & _ & _ & Hwin & _ & _ & _ & Hsum).
  { vm_compute. left. }
  assert (rh = "win") as -> by (vm_compute in Hrh; congruence).
  exists "win", ra, ph, pa. split; [reflexivity|]. split; [reflexivity|].
  split; [now apply Hwin|]. apply Hsum. intros [? _]. discriminate.
Defined.

(** C2.  On a game row with numeric scores [calculate_result] is "win" when
    the home score is the greater, "loss" when it is the smaller and "draw"
    otherwise; [calculate_points] gives 3 for "win", 1 for "draw" and 0 for
    "loss"; the game won 2-1 at home gets "win", 3, "loss" and 0. *)
Theorem calculate_result_and_points (row : pd.Row) (home_score away_score : Z) :
  pd.row_getitem row "home_score" = Ok (VInt home_score) ->
  pd.row_getitem row "away_score" = Ok (VInt away_score) ->
  (home_score > away_score -> calculate_result row = Ok "win") /\
  (home_score < away_score -> calculate_result row = Ok "loss") /\
  (home_score = away_score -> calculate_result row = Ok "draw") /\
  calculate_points (VStr "win") = 3 /\
  calculate_points (VStr "draw") = 1 /\
  calculate_points (VStr "loss") = 0 /\
  run_steps results_and_points Sample.game_2_1 =
    ({| columns := columns Sample.game_2_1 ++
                   [plain "result_home"; plain "points_home";
                    plain "result_away"; plain "points_away"];
        rows := [[VStr "G1"; VInt 1; VInt 2; VInt 2; VInt 1;
                  VStr "win"; VInt 3; VStr "loss"; VInt 0]] |}, None).
Proof.
  intros Hh Ha. unfold calculate_result. rewrite Hh, Ha. cbn [rbind py_gt py_lt].
  repeat split.
  - intros H. apply Z.gt_lt, Z.gtb_lt in H. now rewrite H.
  - intros H. assert ((home_score >? away_score) = false) as ->
      by (rewrite Z.gtb_ltb; apply Z.ltb_ge; lia).
    apply Z.ltb_lt in H. now rewrite H.
  - intros ->. rewrite Z.gtb_ltb, Z.ltb_irrefl. reflexivity.
Qed.

Lemma calculate_result_and_points_witness :
  let row := [("home_score", VInt 2); ("away_score", VInt 1)] in
  calculate_result row = Ok "win" /\ calculate_points (VStr "win") = 3.
Proof.
  pose proof (calculate_result_and_points
                [("home_score", VInt 2); ("away_score", VInt 1)] 2 1
                eq_refl eq_refl) as (Hwin & _ & _ & H3 & _).
  split; [apply Hwin; lia | exact H3].
Defined.

(** ** The statistics of the teams *)

(** C3, on the sample client.  [merge_team_statistics] returns without an
    error, and the table it returns still has the columns "competition_dup"
    and "count_games_dup": the expected-pass table repeats the labels
    "competition" and "count_games", and the labels to drop after the third
    merge are read from the table as it is before that merge. *)
Theorem merge_team_statistics_keeps_duplicates :
  exists teams : DataFrame,
    merge_team_statistics Sample.processor Sample.uslc_teams [] =
      (Ok teams,
       [Requested "get_team_goals_added"; Requested "get_team_xgoals";
        Requested "get_team_xpass"]) /\
    List.filter (fun col => endswith col DUPLICATE_SUFFIX) (labels teams) =
      ["competition_dup"; "count_games_dup"].
Proof. eexists. split; [vm_compute; reflexivity | reflexivity]. Qed.

(** C4, as the code has it.  When the request for one of the three
    statistics tables raises, [merge_team_statistics] does not raise: it
    makes the requests in order up to the first one that raises and none
    after it, logs the exception of that request and returns its argument
    as it is, so all rows are retained, no table is merged and no column is
    added. *)
Theorem merge_team_statistics_failed_request (self : ASADataProcessor) (teams : DataFrame)
    (t : list event) :
  (exists e, asa.get_team_goals_added (client self) COMPETITION = Err e) \/
  (exists e, asa.get_team_xgoals (client self) COMPETITION = Err e) \/
  (exists e, asa.get_team_xpass (client self) COMPETITION = Err e) ->
  exists (requests : list event) (e : exn),
    merge_team_statistics self teams t =
      (Ok teams, t ++ requests ++ [Logged team_statistics_message e]) /\
    ((asa.get_team_goals_added (client self) COMPETITION = Err e /\
      requests = [Requested "get_team_goals_added"]) \/
     ((exists df, asa.get_team_goals_added (client self) COMPETITION = Ok df) /\
      asa.get_team_xgoals (client self) COMPETITION = Err e /\
      requests = [Requested "get_team_goals_added"; Requested "get_team_xgoals"]) \/
     ((exists df, asa.get_team_goals_added (client self) COMPETITION = Ok df) /\
      (exists df, asa.get_team_xgoals (client self) COMPETITION = Ok df) /\
      asa.get_team_xpass (client self) COMPETITION = Err e /\
      requests = [Requested "get_team_goals_added"; Requested "get_team_xgoals";
                  Requested "get_team_xpass"])).
Proof.
  intros H.
  unfold merge_team_statistics, attempt, bind, request, log_error, ret.
  destruct (asa.get_team_goals_added (client self) COMPETITION) as [ga|e1].
  2:{ exists [Requested "get_team_goals_added"], e1. rewrite <- !app_assoc.
      split; [reflexivity|]. left. split; reflexivity. }
  destruct (asa.get_team_xgoals (client self) COMPETITION) as [xg|e2].
  2:{ exists [Requested "get_team_goals_added"; Requested "get_team_xgoals"], e2.
      rewrite <- !app_assoc. split; [reflexivity|].
      right. left. split; [now exists ga|]. split; reflexivity. }
  destruct (asa.get_team_xpass (client self) COMPETITION) as [xp|e3].
  2:{ exists team_statistics_requests, e3.
      rewrite <- !app_assoc. split; [reflexivity|].
      right. right. split; [now exists ga|]. split; [now exists xg|].
      split; reflexivity. }
  exfalso. destruct H as [[e H] | [[e H] | [e H]]]; discriminate.
Qed.

Lemma merge_team_statistics_failed_request_witness :
  exists (requests : list event) (e : exn),
    merge_team_statistics Sample.without_team_xgoals Sample.uslc_teams [] =
      (Ok Sample.uslc_teams, [] ++ requests ++ [Logged team_statistics_message e]) /\
    ((asa.get_team_goals_added (client Sample.without_team_xgoals) COMPETITION = Err e /\
      requests = [Requested "get_team_goals_added"]) \/
     ((exists df,
         asa.get_team_goals_added (client Sample.without_team_xgoals) COMPETITION = Ok df) /\
      asa.get_team_xgoals (client Sample.without_team_xgoals) COMPETITION = Err e /\
      requests = [Requested "get_team_goals_added"; Requested "get_team_xgoals"]) \/
     ((exists df,
         asa.get_team_goals_added (client Sample.without_team_xgoals) COMPETITION = Ok df) /\
      (exists df,
         asa.get_team_xgoals (client Sample.without_team_xgoals) COMPETITION = Ok df) /\
      asa.get_team_xpass (client Sample.without_team_xgoals) COMPETITION = Err e /\
      requests = [Requested "get_team_goals_added"; Requested "get_team_xgoals";
                  Requested "get_team_xpass"])).
Proof.
  apply (merge_team_statistics_failed_request
           Sample.without_team_xgoals Sample.uslc_teams []).
  right. left. exists ClientError. reflexivity.
Defined.

(** C4, as it is specified, fails on the sample client when the request
    for the expected goals raises: the table that comes back has neither the
    columns of the goals-added table nor "avg_vertical_distance_diff". *)
Lemma merge_team_statistics_failed_request_counterexample :
  ~ (exists (teams : DataFrame) (t : list event),
       merge_team_statistics Sample.without_team_xgoals Sample.uslc_teams [] = (Ok teams, t) /\
       mem "minutes" (labels teams) = true /\
       mem "attempted_passes_for" (labels teams) = true /\
       mem "avg_vertical_distance_diff" (labels teams) = true).
Proof.
  intros (teams & t & H & Hminutes & _).
  vm_compute in H. injection H as <- _. vm_compute in Hminutes. discriminate.
Qed.

(** ** Failing requests *)

(** C5, on a client whose teams table cannot be read.  [fetch_data] logs
    the failure and puts an empty table in its place, but the next
    statement that reads a column of that table raises [KeyError]; the
    outer handler logs it and [fetch_data] returns the empty mapping.  The
    stadiums, the managers and the referees are never requested. *)
Theorem fetch_data_without_teams (self : ASADataProcessor) (competition : string)
    (e : exn) :
  asa.teams (client self) = Err e ->
  exists t : list event,
    fetch_data self competition [] = (Ok ∅, t) /\
    Logged ("Error fetching teams data for " +:+ COMPETITION) e ∈ t /\
    Logged ("General error in fetch_data for " +:+ COMPETITION) KeyError ∈ t /\
    (Requested "stadia" ∉ t) /\
    (Requested "managers" ∉ t) /\
    (Requested "get_referees" ∉ t).
Proof.
  intros He. unfold fetch_data. cbv zeta.
  destruct (or_empty_filter_competition
              ("Error fetching players data for " +:+ COMPETITION) "players"
              (asa.players (client self)) COMPETITION [])
    as (players & evsP & HP & HPev & _).
  rewrite (try_except_bind_ok _ _ _ _ _ _ HP).
  destruct (or_empty_filter_competition
              ("Error fetching teams data for " +:+ COMPETITION) "teams"
              (asa.teams (client self)) COMPETITION ([] ++ evsP))
    as (teams & evsT & HT & _ & HTe).
  destruct (HTe _ He) as [-> ->].
  rewrite (try_except_bind_ok _ _ _ _ _ _ HT).
  destruct (merge_team_statistics_empty self
              (([] ++ evsP) ++ [Requested "teams";
                                Logged ("Error fetching teams data for " +:+ COMPETITION) e]))
    as (evsM & HM & HMev).
  rewrite (try_except_bind_ok _ _ _ _ _ _ HM).
  rewrite (try_except_bind_err (lift (to_category "team_name" pd.DataFrame)) _ _ _ _
             KeyError eq_refl).
  eexists. split; [reflexivity|].
  assert (Hnot : forall what : string,
             what <> "players" -> what <> "teams" -> what <> "get_team_goals_added" ->
             what <> "get_team_xgoals" -> what <> "get_team_xpass" ->
             Requested what ∉
               ((([] ++ evsP) ++
                 [Requested "teams";
                  Logged ("Error fetching teams data for " +:+ COMPETITION) e]) ++ evsM) ++
               [Logged ("General error in fetch_data for " +:+ COMPETITION) KeyError]).
  { intros what H1 H2 H3 H4 H5.
    rewrite !not_elem_of_app. repeat split.
    - apply not_elem_of_nil.
    - intros Hin. rewrite Forall_forall in HPev. apply HPev in Hin as [[=] | [? [=]]].
      congruence.
    - intros Hin. apply elem_of_cons in Hin as [[=] | Hin]; [congruence|].
      apply elem_of_cons in Hin as [[=] | Hin]. now apply not_elem_of_nil in Hin.
    - intros Hin. rewrite Forall_forall in HMev.
      apply HMev in Hin as [[=] | [[=] | [[=] | [? [=]]]]]; congruence.
    - intros Hin. apply elem_of_cons in Hin as [[=] | Hin]. now apply not_elem_of_nil in Hin. }
  split; [|split; [|repeat split]].
  - rewrite !elem_of_app. left. left. right. right. left.
  - rewrite !elem_of_app. right. left.
  - now apply Hnot.
  - now apply Hnot.
  - now apply Hnot.
Qed.

Lemma fetch_data_without_teams_witness :
  exists t : list event,
    fetch_data Sample.without_teams COMPETITION [] = (Ok ∅, t) /\
    Logged ("Error fetching teams data for " +:+ COMPETITION) ClientError ∈ t /\
    Logged ("General error in fetch_data for " +:+ COMPETITION) KeyError ∈ t /\
    (Requested "stadia" ∉ t) /\
    (Requested "managers" ∉ t) /\
    (Requested "get_referees" ∉ t).
Proof. apply (fetch_data_without_teams Sample.without_teams COMPETITION ClientError eq_refl). Defined.

(** C6, on a client whose games cannot be requested.  The handler of the
    games block logs the exception and assigns nothing to [games]; every
    later read of [games] raises [UnboundLocalError], the last of them in
    the statement that builds the result, outside every inner [try].  So
    [fetch_data] returns the empty mapping: it has no "games" key, and no
    "teams" or "players" key either. *)
Theorem fetch_data_without_games (self : ASADataProcessor) (competition : string)
    (e : exn) (t : list event) :
  asa.get_games (client self) COMPETITION = Err e ->
  (fetch_data self competition t).1 = Ok ∅.
Proof.
  intros He. unfold fetch_data. cbv zeta.
  do 27 next_statement.
  rewrite (try_except_bind_ok
             (attempt (request "get_games" (asa.get_games (client self) COMPETITION)))
             _ _ _ (t26 ++ [Requested "get_games"]) (Err e))
    by (unfold attempt, request; now rewrite He).
  cbv beta iota.
  unbound_statement.
  match goal with
  | |- (try_except (bind ?m _) _ ?t0).1 = _ =>
      assert (Hx : exists t', m t0 = (Ok None, t'))
  end.
  { unfold try_except, bind, request, lift, log_error, ret.
    destruct (asa.get_game_xgoals (client self) COMPETITION); cbn; eauto. }
  destruct Hx as [tx Hx]. rewrite (try_except_bind_ok _ _ _ _ _ _ Hx).
  do 2 unbound_statement.
  match goal with
  | |- (try_except (bind ?m _) _ ?t0).1 = _ =>
      rewrite (try_except_bind_err m _ _ t0 t0 UnboundLocalError eq_refl)
  end.
  reflexivity.
Qed.

Lemma fetch_data_without_games_witness :
  (fetch_data Sample.without_games COMPETITION []).1 = Ok ∅.
Proof. apply (fetch_data_without_games Sample.without_games COMPETITION ClientError [] eq_refl). Defined.

(** ** The references of the games *)

(** C7, on the sample client.  Of the four games the client returns,
    [fetch_data] keeps [G1] and [G2] only: [G2], whose stadium and referee
    are unknown, is kept with missing names, but [G3], which has no away
    manager, and [G4], whose home team is unknown, are dropped by the joins
    with the teams and the managers. *)
Theorem fetch_data_drops_unresolved_games :
  (values <$> pd.getitem Sample.games GAME_ID) =
    Ok [VStr "G1"; VStr "G2"; VStr "G3"; VStr "G4"] /\
  exists (data : gmap string DataFrame) (t : list event) (games : DataFrame),
    fetch_data Sample.processor COMPETITION [] = (Ok data, t) /\
    data !! "games" = Some games /\
    (values <$> pd.getitem games GAME_ID) = Ok [VStr "G1"; VStr "G2"] /\
    (values <$> pd.getitem games "stadium_name") = Ok [VStr "Park"; VNaN] /\
    (values <$> pd.getitem games "referee_name") = Ok [VStr "Rex"; VNaN].
Proof.
  split; [reflexivity|].
  eexists _, _, _. split; [vm_compute; reflexivity|].
  split; [reflexivity|]. repeat split.
Qed.

(** ** Players on several teams *)




(** ** The split of the players *)

(** C9.  The split of the players puts the rows whose primary broad position
    is "GK" into the goalkeepers and all the others, those without a
    position included, into the field players: no row is in both tables and
    the two tables together hold the rows of the players, each as often as
    the players table does. *)
Theorem split_players_partition (players field_players goalkeepers : DataFrame) :
  unique (labels players) = true ->
  split_players players = Ok (field_players, goalkeepers) ->
  exists i : nat,
    index_of "primary_broad_position" (labels players) = Some i /\
    rows goalkeepers = List.filter (is_goalkeeper i) (rows players) /\
    rows field_players = List.filter (fun r => negb (is_goalkeeper i r)) (rows players) /\
    (forall r, r ∈ rows goalkeepers -> r ∈ rows field_players -> False) /\
    rows goalkeepers ++ rows field_players ≡ₚ rows players /\
    (forall r, r ∈ rows players ->
       (r ∈ rows goalkeepers /\ r ∉ rows field_players) \/
       (r ∈ rows field_players /\ r ∉ rows goalkeepers)) /\
    (forall r, r ∈ rows players -> cell i r = VNaN -> r ∈ rows field_players).
Proof.
  intros _ H. unfold split_players, pd.getitem in H.
  destruct (index_of "primary_broad_position" (labels players)) as [i|] eqn:Hi;
    [|discriminate].
  cbn in H. injection H as <- <-. exists i.
  unfold pd.getitem_mask, pd.ne, pd.eq; cbn [rows values].
  rewrite !map_map.
  rewrite (keep_map_filter (fun r => value_eqb (cell i r) (VStr "GK"))).
  rewrite (keep_map_filter (fun r => negb (value_eqb (cell i r) (VStr "GK")))).
  change (fun r => value_eqb (cell i r) (VStr "GK")) with (is_goalkeeper i).
  change (fun r => negb (value_eqb (cell i r) (VStr "GK")))
    with (fun r => negb (is_goalkeeper i r)).
  assert (Hin : forall (f : list value -> bool) r,
             r ∈ List.filter f (rows players) <-> r ∈ rows players /\ f r = true).
  { intros f r. rewrite !list_elem_of_In. apply filter_In. }
  repeat split.
  - intros r Hg Hf. apply Hin in Hg as [_ Hg]. apply Hin in Hf as [_ Hf].
    cbv beta in Hf. rewrite Hg in Hf. discriminate.
  - apply filter_complement_perm.
  - intros r Hr. destruct (is_goalkeeper i r) eqn:Hg.
    + left. split; [now apply Hin|]. intros Hf. apply Hin in Hf as [_ Hf].
      cbv beta in Hf. rewrite Hg in Hf. discriminate.
    + right. split; [apply Hin; now rewrite Hg|]. intros Hf. apply Hin in Hf as [_ Hf].
      congruence.
  - intros r Hr Hnan. apply Hin. split; [exact Hr|].
    unfold is_goalkeeper. now rewrite Hnan.
Qed.

Lemma split_players_partition_witness :
  exists i : nat,
    index_of "primary_broad_position" (labels sample_positions) = Some i /\
    List.filter (is_goalkeeper i) (rows sample_positions) = [[VStr "P1"; VStr "GK"]] /\
    List.filter (fun r => negb (is_goalkeeper i r)) (rows sample_positions) =
      [[VStr "P2"; VStr "FW"]; [VStr "P3"; VNaN]].
Proof.
  destruct (split_players_partition sample_positions
              (Sample.frame ["player_id"; "primary_broad_position"]
                 [[VStr "P2"; VStr "FW"]; [VStr "P3"; VNaN]])
              (Sample.frame ["player_id"; "primary_broad_position"]
                 [[VStr "P1"; VStr "GK"]])
              eq_refl eq_refl) as (i & Hi & Hg & Hf & _).
  exists i. split; [exact Hi|]. split; [now rewrite <- Hg | now rewrite <- Hf].
Defined.

(** ** The competition argument *)

(** C10.  [fetch_data] does not depend on its competition argument: the
    argument is replaced by the class constant "uslc" before it is read.
    So two runs with any two arguments, against clients that give the same
    responses for "uslc", return the same tables and leave the same
    requests and log records. *)
Theorem fetch_data_ignores_competition (self1 self2 : ASADataProcessor) (c1 c2 : string)
    (t : list event) :
  same_responses COMPETITION (client self1) (client self2) ->
  fetch_data self1 c1 t = fetch_data self2 c2 t.
Proof.
  intros (H1 & H2 & H3 & H4 & H5 & H6 & H7 & H8 & H9 & H10 & H11 & H12 & H13 & H14 & H15).
  unfold fetch_data, merge_team_statistics. cbv zeta.
  rewrite H1, H2, H3, H4, H5, H6, H7, H8, H9, H10, H11, H12, H13, H14, H15.
  reflexivity.
Qed.

Lemma fetch_data_ignores_competition_witness :
  fetch_data Sample.processor "mls" [] = fetch_data Sample.uslc_only "nwsl" [].
Proof.
  apply (fetch_data_ignores_competition Sample.processor Sample.uslc_only "mls" "nwsl" []).
  repeat split.
Defined.

(** * Further properties of the pipeline *)

(** ** Left merges keep the rows *)

(** The rows of a merge, whatever its columns are. *)
Lemma merge_rows (left right out : DataFrame) (h : pd.how) (left_on right_on : string)
    (suffixes : string * string) :
  pd.merge left right h left_on right_on suffixes = Ok out ->
  exists (i j width : nat) (strip : list value -> list value),
    positions left_on (labels left) = [i] /\
    positions right_on (labels right) = [j] /\
    rows out =
      flat_map
        (fun l => pd.joined h width strip l
                    (List.filter (fun r => value_eqb (cell i l) (cell j r)) (rows right)))
        (rows left).
Proof.
  unfold pd.merge.
  destruct (positions right_on (labels right)) as [|j [|j' js]]; try discriminate.
  destruct (positions left_on (labels left)) as [|i [|i' ks]]; try discriminate.
  destruct (existsb is_list _); [discriminate|]. cbv zeta.
  destruct (pd.merged_columns _ _ _) as [cols|]; [|discriminate].
  cbn [rbind]. intros [= <-]. eexists i, j, _, _. repeat split.
Qed.

Lemma joined_prefix (h : pd.how) (width : nat) (strip : list value -> list value)
    (l r' : list value) (partners : list (list value)) :
  r' ∈ pd.joined h width strip l partners -> l `prefix_of` r'.
Proof.
  unfold pd.joined. destruct partners as [|p ps].
  - destruct h; [intros H; now apply elem_of_nil in H|].
    intros ->%list_elem_of_singleton. now eexists.
  - intros (p' & -> & _)%list_elem_of_fmap. now eexists.
Qed.

Lemma joined_left_first (width : nat) (strip : list value -> list value)
    (l : list value) (partners : list (list value)) :
  exists r' rest, pd.joined pd.how_left width strip l partners = r' :: rest.
Proof. destruct partners; cbn; eauto. Qed.

(** The rows a left merge makes: none of the left rows is lost. *)
Lemma left_merge_keeps_rows (left right out : DataFrame) (left_on right_on : string)
    (suffixes : string * string) :
  pd.merge left right pd.how_left left_on right_on suffixes = Ok out ->
  (length (rows left) <= length (rows out))%nat /\
  (forall r, r ∈ rows left -> exists r', r' ∈ rows out /\ r `prefix_of` r') /\
  (forall r', r' ∈ rows out -> exists r, r ∈ rows left /\ r `prefix_of` r').
Proof.
  intros (i & j & width & strip & _ & _ & ->)%merge_rows.
  set (f := fun l => pd.joined _ _ _ l _).
  split; [|split].
  - induction (rows left) as [|l ls IH]; cbn; [lia|].
    destruct (joined_left_first width strip l
                (List.filter (fun r => value_eqb (cell i l) (cell j r)) (rows right)))
      as (r' & rest & E).
    rewrite length_app. unfold f at 1. rewrite E. cbn. lia.
  - intros r Hr.
    destruct (joined_left_first width strip r
                (List.filter (fun r0 => value_eqb (cell i r) (cell j r0)) (rows right)))
      as (r' & rest & E).
    exists r'. assert (Hin : r' ∈ f r) by (unfold f; rewrite E; left).
    split; [|exact (joined_prefix _ _ _ _ _ _ Hin)].
    apply list_elem_of_In, in_flat_map. exists r. now rewrite <- !list_elem_of_In.
  - intros r' (l & Hl & Hr')%list_elem_of_In%in_flat_map.
    exists l. rewrite list_elem_of_In. split; [exact Hl|].
    apply list_elem_of_In in Hr'. exact (joined_prefix _ _ _ _ _ _ Hr').
Qed.

(** X1.  The four name merges on one key ([add_player_names],
    [add_stadium_names], [add_manager_names], [add_referee_names]) are left
    merges: when one of them returns, no row of [df] is lost, every row of
    [df] is the beginning of a row of the result, and every row of the
    result begins with a row of [df]. *)
Theorem name_merges_keep_rows (df table out : DataFrame) :
  add_player_names df table = Ok out \/
  add_stadium_names df table = Ok out \/
  add_manager_names df table = Ok out \/
  add_referee_names df table = Ok out ->
  (length (rows df) <= length (rows out))%nat /\
  (forall r, r ∈ rows df -> exists r', r' ∈ rows out /\ r `prefix_of` r') /\
  (forall r', r' ∈ rows out -> exists r, r ∈ rows df /\ r `prefix_of` r').
Proof.
  unfold add_player_names, add_stadium_names, add_manager_names, add_referee_names.
  intros [H | [H | [H | H]]];
    (destruct (pd.select table _) as [names|]; [|discriminate]);
    exact (left_merge_keeps_rows _ _ _ _ _ _ H).
Qed.

Lemma name_merges_keep_rows_witness :
  (length (rows Sample.games) <=
   length (rows (returned (add_stadium_names Sample.games Sample.stadia))))%nat.
Proof.
  apply (name_merges_keep_rows Sample.games Sample.stadia
           (returned (add_stadium_names Sample.games Sample.stadia))).
  right. left. reflexivity.
Defined.

Lemma mem_index_of (c : string) (cs : list string) :
  mem c cs = true -> exists i, index_of c cs = Some i.
Proof.
  unfold mem. induction cs as [|c' cs IH]; cbn; [discriminate|].
  destruct (String.eqb c c'); [eauto|]. cbn. intros H.
  destruct (IH H) as [i ->]. cbn. eauto.
Qed.

Lemma joined_left_one (width : nat) (strip : list value -> list value)
    (l : list value) (partners : list (list value)) :
  (length partners <= 1)%nat ->
  length (pd.joined pd.how_left width strip l partners) = 1%nat.
Proof. destruct partners as [|p [|p' ps]]; cbn; try reflexivity. lia. Qed.

Lemma length_flat_map_one {A B : Type} (f : A -> list B) (l : list A) :
  (forall x, length (f x) = 1%nat) -> length (flat_map f l) = length l.
Proof.
  intros H. induction l as [|x l IH]; [reflexivity|].
  cbn. rewrite length_app, H, IH. reflexivity.
Qed.

(** A left merge with a table of names whose keys are distinct makes
    exactly one row of each left row. *)
Lemma keyed_left_merge_one_row (df table out : DataFrame) (key name : string)
    (suffixes : string * string) :
  key <> name ->
  unique (labels table) = true ->
  distinct_column table key = true ->
  (let? names := pd.select table [key; name] in
   pd.merge df names pd.how_left key key suffixes) = Ok out ->
  length (rows out) = length (rows df).
Proof.
  intros Hne Hu Hd H. unfold distinct_column, pd.getitem in Hd.
  destruct (index_of key (labels table)) as [j|] eqn:Hj; [|discriminate].
  cbn [values] in Hd.
  destruct (pd.select table [key; name]) as [names|] eqn:Hs; [|discriminate].
  cbn [rbind] in H.
  assert (Hk : exists k, index_of name (labels table) = Some k).
  { apply mem_index_of. unfold pd.select in Hs. cbn [forallb] in Hs.
    destruct (mem key (labels table)); [|discriminate].
    destruct (mem name (labels table)); [reflexivity|discriminate]. }
  destruct Hk as [k Hk].
  rewrite (select_two _ _ _ _ _ Hu Hj Hk) in Hs. injection Hs as <-.
  apply merge_rows in H as (i & j0 & width & strip & _ & Hpos & ->).
  unfold positions, labels in Hpos. cbn in Hpos.
  rewrite String.eqb_refl in Hpos.
  assert (String.eqb key name = false) as E by now apply String.eqb_neq.
  rewrite E in Hpos. injection Hpos as <-.
  apply length_flat_map_one. intros l. apply joined_left_one. cbn [rows].
  apply partners_distinct. now rewrite map_map.
Qed.

(** X2.  When the labels of the names table are distinct and its key
    column holds no value twice, a name merge on one key returns exactly as
    many rows as [df] has. *)
Theorem name_merges_one_row_each (df table out : DataFrame) :
  unique (labels table) = true ->
  (distinct_column table PLAYER_ID = true /\ add_player_names df table = Ok out) \/
  (distinct_column table STADIUM_ID = true /\ add_stadium_names df table = Ok out) \/
  (distinct_column table MANAGER_ID = true /\ add_manager_names df table = Ok out) \/
  (distinct_column table REFEREE_ID = true /\ add_referee_names df table = Ok out) ->
  length (rows out) = length (rows df).
Proof.
  intros Hu [[Hd H] | [[Hd H] | [[Hd H] | [Hd H]]]];
    eapply keyed_left_merge_one_row; try exact H; try exact Hd; try exact Hu; discriminate.
Qed.

Lemma name_merges_one_row_each_witness :
  length (rows (returned (add_referee_names Sample.games Sample.referees))) =
  length (rows Sample.games).
Proof.
  apply (name_merges_one_row_each Sample.games Sample.referees
           (returned (add_referee_names Sample.games Sample.referees)) eq_refl).
  right. right. right. split; reflexivity.
Defined.

(** ** Rows of [add_team_names] *)

Lemma positions_from_index (n : nat) (c : string) (cs : list string) (i : nat) (ks : list nat) :
  positions_from n c cs = i :: ks -> exists i', index_of c cs = Some i' /\ i = (n + i')%nat.
Proof.
  revert n. induction cs as [|c' cs IH]; intros n; cbn; [discriminate|].
  destruct (String.eqb c c').
  - intros [= <- _]. exists 0%nat. split; [reflexivity|lia].
  - intros (i' & -> & ->)%IH. exists (S i'). split; [reflexivity|lia].
Qed.

Lemma positions_index (c : string) (cs : list string) (i : nat) (ks : list nat) :
  positions c cs = i :: ks -> index_of c cs = Some i.
Proof. intros (i' & H & ->)%positions_from_index. exact H. Qed.

(** A merge that returns has found no list among the keys of the left
    table. *)
Lemma merge_keys_hashable (left right out : DataFrame) (h : pd.how)
    (left_on right_on : string) (suffixes : string * string) (i : nat) :
  pd.merge left right h left_on right_on suffixes = Ok out ->
  index_of left_on (labels left) = Some i ->
  existsb is_list (map (cell i) (rows left)) = false.
Proof.
  unfold pd.merge. intros H Hi.
  destruct (positions right_on (labels right)) as [|j [|j' js]]; try discriminate.
  destruct (positions left_on (labels left)) as [|i0 [|i' ks]] eqn:Hp; try discriminate.
  apply positions_index in Hp. rewrite Hi in Hp. injection Hp as <-.
  destruct (existsb is_list _) eqn:E; [discriminate|].
  rewrite existsb_app in E. now apply orb_false_iff in E as [-> _].
Qed.

Lemma length_explode_row (i : nat) (r : list value) :
  length (pd.explode_row i r) = teams_of (cell i r).
Proof.
  unfold pd.explode_row, teams_of. destruct (cell i r) as [| | |[|x l]];
    try reflexivity.
  apply length_map.
Qed.

Lemma length_flat_map {A B : Type} (f : A -> list B) (l : list A) :
  length (flat_map f l) = sum_list (map (fun x => length (f x)) l).
Proof.
  induction l as [|x l IH]; [reflexivity|]. cbn. now rewrite length_app, IH.
Qed.

Lemma teams_of_scalars (i : nat) (rs : list (list value)) :
  existsb is_list (List.filter notna (map (cell i) rs)) = false ->
  sum_list (map (fun r => teams_of (cell i r)) rs) = length rs.
Proof.
  induction rs as [|r rs IH]; [reflexivity|]. cbn.
  destruct (cell i r) as [| | |l] eqn:E; cbn; try (intros H; now rewrite (IH H)).
  discriminate.
Qed.

(** X3.  With a teams table whose labels are distinct and whose "team_id"
    holds no value twice, [add_team_names] returns one row for every team of
    every row of [df]: a row whose "team_id" is a list that is not empty
    counts once for each of its elements, any other row once. *)
Theorem add_team_names_row_count (df teams_df out : DataFrame) (i : nat) :
  unique (labels teams_df) = true ->
  distinct_column teams_df TEAM_ID = true ->
  index_of TEAM_ID (labels df) = Some i ->
  add_team_names df teams_df = Ok out ->
  length (rows out) = sum_list (map (fun r => teams_of (cell i r)) (rows df)).
Proof.
  intros Hu Hd Hi. unfold add_team_names.
  rewrite (index_of_mem _ _ _ Hi). unfold pd.getitem at 1. rewrite Hi.
  cbn [rbind values].
  destruct (existsb is_list (List.filter notna (map (cell i) (rows df)))) eqn:Hl.
  - destruct (pd.explode df TEAM_ID) as [e|] eqn:He; [|discriminate]. cbn [rbind].
    destruct (pd.select teams_df [TEAM_ID; "team_name"]) as [names|] eqn:Hs;
      [|discriminate].
    cbn [rbind].
    destruct (pd.merge e names pd.how_left TEAM_ID TEAM_ID default_suffixes)
      as [m|] eqn:Hm; [|discriminate].
    cbn [rbind]. intros [= <-].
    assert (Hlen : length (rows m) = length (rows e)).
    { apply (keyed_left_merge_one_row e teams_df m TEAM_ID "team_name" default_suffixes);
        [discriminate | exact Hu | exact Hd |]. now rewrite Hs. }
    rewrite Hlen. unfold pd.explode in He.
    destruct (unique (labels df)); [|discriminate]. cbn [negb] in He.
    rewrite Hi in He.
    destruct (categorical (nth i (columns df) no_column)).
    + injection He as <-.
      pose proof (merge_keys_hashable _ _ _ _ _ _ _ i Hm Hi) as Hh.
      exfalso. clear -Hl Hh. induction (rows df) as [|r rs IH]; [discriminate|].
      cbn in *. apply orb_false_iff in Hh as [Hr Hh].
      destruct (cell i r); cbn in *; try discriminate; auto.
    + injection He as <-. cbn [rows]. rewrite length_flat_map.
      f_equal. apply map_ext. intros r. apply length_explode_row.
  - intros H. rewrite (teams_of_scalars _ _ Hl).
    apply (keyed_left_merge_one_row df teams_df out TEAM_ID "team_name" default_suffixes);
      [discriminate | exact Hu | exact Hd | exact H].
Qed.

Lemma add_team_names_row_count_witness :
  length (rows (returned (add_team_names Sample.two_team_player Sample.uslc_teams))) = 2%nat.
Proof.
  exact (add_team_names_row_count Sample.two_team_player Sample.uslc_teams
           (returned (add_team_names Sample.two_team_player Sample.uslc_teams)) 2
           eq_refl eq_refl eq_refl eq_refl).
Defined.

(** ** Inner merges *)

(** With distinct labels, [df[[c1, ..., cn]]] has the labels [c1, ..., cn]
    and, in each row, the cells of these columns. *)
Lemma select_unique (df out : DataFrame) (cs : list string) :
  unique (labels df) = true ->
  pd.select df cs = Ok out ->
  labels out = cs /\
  rows out = map (fun r => map (fun c => cell (position df c) r) cs) (rows df).
Proof.
  intros Hu. unfold pd.select.
  destruct (forallb (fun c => mem c (labels df)) cs) eqn:Hall; [|discriminate].
  intros [= <-].
  assert (Hidx : flat_map (fun c => positions c (labels df)) cs = map (position df) cs).
  { induction cs as [|c cs IH]; [reflexivity|]. cbn in Hall.
    apply andb_true_iff in Hall as [Hc Hall]. cbn. rewrite (IH Hall).
    destruct (mem_index_of _ _ Hc) as [i Hi].
    rewrite (positions_unique _ _ _ Hu Hi). unfold position. now rewrite Hi. }
  rewrite Hidx. unfold labels at 1. cbn [columns rows]. split.
  - rewrite !map_map. clear Hidx. induction cs as [|c cs IH]; [reflexivity|].
    cbn in Hall. apply andb_true_iff in Hall as [Hc Hall]. cbn. rewrite (IH Hall).
    f_equal. destruct (mem_index_of _ _ Hc) as [i Hi]. unfold position. rewrite Hi.
    apply (index_of_label _ _ _ Hi).
  - apply map_ext. intros r. now rewrite map_map.
Qed.

Lemma index_of_nth (c : string) (cs : list string) (j : nat) :
  index_of c cs = Some j -> nth j cs "" = c.
Proof.
  revert j. induction cs as [|c' cs IH]; intros j; cbn; [discriminate|].
  destruct (String.eqb c c') eqn:E.
  - intros [= <-]. symmetry. now apply String.eqb_eq.
  - destruct (index_of c cs) as [j'|]; cbn; [|discriminate].
    intros [= <-]. now apply IH.
Qed.

Lemma joined_inner_partner (width : nat) (strip : list value -> list value)
    (l r' : list value) (partners : list (list value)) :
  r' ∈ pd.joined pd.how_inner width strip l partners ->
  l `prefix_of` r' /\ exists p, p ∈ partners.
Proof.
  intros H. split; [exact (joined_prefix _ _ _ _ _ _ H)|].
  destruct partners as [|p ps]; [now apply elem_of_nil in H|].
  exists p. left.
Qed.

(** X4.  The merges of the home and away teams and managers into the games
    are inner merges: every row they return begins with a row of the games
    whose key is one of the keys of the merged table. *)
Theorem merge_names_known_only (table games out : DataFrame) (cs : list string)
    (left_on right_on : string) (suffixes : string * string) :
  unique (labels table) = true ->
  merge_names table cs left_on right_on suffixes games = Ok out ->
  exists (i : nat) (ids : Series),
    index_of left_on (labels games) = Some i /\
    pd.getitem table right_on = Ok ids /\
    forall r', r' ∈ rows out ->
      exists l, l ∈ rows games /\ l `prefix_of` r' /\ cell i l ∈ values ids.
Proof.
  intros Hu. unfold merge_names.
  destruct (pd.select table cs) as [names|] eqn:Hs; [|discriminate]. cbn [rbind].
  intros (i & j & width & strip & Hi & Hj & Hrows)%merge_rows.
  destruct (select_unique _ _ _ Hu Hs) as [Hlabels Hnames].
  rewrite Hlabels in Hj. apply positions_index in Hj, Hi.
  pose proof (index_of_nth _ _ _ Hj) as Hnth.
  assert (Hmem : mem right_on (labels table) = true).
  { unfold pd.select in Hs.
    destruct (forallb (fun c => mem c (labels table)) cs) eqn:Hall; [|discriminate].
    rewrite forallb_forall in Hall. apply Hall. rewrite <- Hnth.
    apply nth_In. exact (index_of_lt _ _ _ Hj). }
  destruct (mem_index_of _ _ Hmem) as [k Hk].
  exists i, {| s_categorical := categorical (nth k (columns table) no_column);
               values := map (cell k) (rows table) |}.
  split; [exact Hi|]. split; [unfold pd.getitem; now rewrite Hk|].
  intros r' Hr'. rewrite Hrows in Hr'.
  apply list_elem_of_In, in_flat_map in Hr' as (l & Hl & Hr').
  apply list_elem_of_In, joined_inner_partner in Hr' as (Hpre & p & Hp).
  exists l. rewrite list_elem_of_In. split; [exact Hl|]. split; [exact Hpre|].
  apply list_elem_of_In, filter_In in Hp as [Hp Heq].
  apply value_eqb_eq in Heq. rewrite Heq. cbn [values].
  rewrite Hnames in Hp. apply in_map_iff in Hp as (t & <- & Ht).
  apply list_elem_of_In, in_map_iff. exists t. split; [|exact Ht].
  unfold cell at 2.
  rewrite (nth_indep _ VNaN (cell (position table "") t))
    by (rewrite length_map; exact (index_of_lt _ _ _ Hj)).
  rewrite (map_nth (fun c => cell (position table c) t)), Hnth.
  unfold position. now rewrite Hk.
Qed.

Lemma merge_names_known_only_witness :
  exists (i : nat) (ids : Series),
    index_of HOME_TEAM_ID (labels Sample.games) = Some i /\
    pd.getitem Sample.uslc_teams TEAM_ID = Ok ids /\
    forall r',
      r' ∈ rows (returned (merge_names Sample.uslc_teams
                             ["team_id"; "team_name"; "team_abbreviation"]
                             HOME_TEAM_ID TEAM_ID default_suffixes Sample.games)) ->
      exists l, l ∈ rows Sample.games /\ l `prefix_of` r' /\ cell i l ∈ values ids.
Proof.
  exact (merge_names_known_only Sample.uslc_teams Sample.games _
           ["team_id"; "team_name"; "team_abbreviation"]
           HOME_TEAM_ID TEAM_ID default_suffixes eq_refl eq_refl).
Defined.

(** ** The outcome of [merge_team_statistics] *)

Lemma length_keep_rows {A : Type} (m : list bool) (rs : list (list A)) :
  length (map (keep m) rs) = length rs.
Proof. apply length_map. Qed.

Lemma merge_statistics_rows (statistics teams out : DataFrame) :
  merge_statistics statistics teams = Ok out ->
  (length (rows teams) <= length (rows out))%nat.
Proof.
  unfold merge_statistics.
  destruct (pd.merge teams statistics _ _ _ _) as [m|] eqn:Hm; [|discriminate].
  cbn [rbind]. unfold pd.drop. destruct (forallb _ _); [|discriminate].
  intros [= <-]. cbn [rows]. rewrite length_map.
  now apply left_merge_keeps_rows in Hm as [? _].
Qed.

Lemma ensure_expected_columns_spec (teams : DataFrame) :
  length (rows (ensure_expected_columns teams)) = length (rows teams) /\
  mem "avg_vertical_distance_diff" (labels (ensure_expected_columns teams)) = true.
Proof.
  unfold ensure_expected_columns, expected_columns. cbn [fold_left].
  destruct (mem "avg_vertical_distance_diff" (labels teams)) eqn:E; [now split|].
  unfold pd.setitem_scalar. rewrite E. cbn [rows columns]. split; [apply length_map|].
  unfold labels, mem. cbn [columns]. rewrite map_app, existsb_app. cbn.
  apply orb_true_r.
Qed.

(** X5.  [merge_team_statistics] never raises and never loses a row of the
    teams.  Either its last event is the error it logged, or its events are
    exactly the three requests and the table it returns has the column
    "avg_vertical_distance_diff". *)
Theorem merge_team_statistics_outcome (self : ASADataProcessor) (teams : DataFrame)
    (t : list event) :
  exists (out : DataFrame) (evs : list event),
    merge_team_statistics self teams t = (Ok out, t ++ evs) /\
    (length (rows teams) <= length (rows out))%nat /\
    ((exists e, last evs = Some (Logged team_statistics_message e)) \/
     (evs = team_statistics_requests /\
      mem "avg_vertical_distance_diff" (labels out) = true)).
Proof.
  unfold merge_team_statistics, attempt, bind, request, log_error, ret.
  destruct (asa.get_team_goals_added (client self) COMPETITION) as [ga|e1].
  2:{ eexists teams, [_; _]. rewrite <- !app_assoc. split; [reflexivity|].
      split; [lia|]. left. now eexists. }
  destruct (asa.get_team_xgoals (client self) COMPETITION) as [xg|e2].
  2:{ eexists teams, [_; _; _]. rewrite <- !app_assoc. split; [reflexivity|].
      split; [lia|]. left. now eexists. }
  destruct (asa.get_team_xpass (client self) COMPETITION) as [xp|e3].
  2:{ eexists teams, [_; _; _; _]. rewrite <- !app_assoc. split; [reflexivity|].
      split; [lia|]. left. now eexists. }
  unfold guarded_steps, run_steps, bind, log_error, ret.
  destruct (merge_statistics ga teams) as [t1|e] eqn:H1.
  2:{ eexists teams, [_; _; _; _]. rewrite <- !app_assoc. split; [reflexivity|].
      split; [lia|]. left. now eexists. }
  apply merge_statistics_rows in H1.
  destruct (merge_statistics xg t1) as [t2|e] eqn:H2.
  2:{ eexists t1, [_; _; _; _]. rewrite <- !app_assoc. split; [reflexivity|].
      split; [lia|]. left. now eexists. }
  apply merge_statistics_rows in H2.
  destruct (merge_statistics xp t2) as [t3|e] eqn:H3.
  2:{ eexists t2, [_; _; _; _]. rewrite <- !app_assoc. split; [reflexivity|].
      split; [lia|]. left. now eexists. }
  apply merge_statistics_rows in H3.
  destruct (ensure_expected_columns_spec t3) as [Hlen Hmem].
  eexists _, [_; _; _]. rewrite <- !app_assoc. split; [reflexivity|].
  split; [lia|]. right. split; [reflexivity | exact Hmem].
Qed.

(** ** The outcomes of [fetch_data] *)

(** One statement of the outer [try], for a run whose outcome is known:
    either it raised, and the outer handler made the outcome, or the run
    went on. *)
Ltac traced_statement H :=
  lazymatch type of H with
  | try_except (bind ?m ?k) ?h ?t = _ =>
      let E := fresh "E" in
      destruct (m t) as [[?|?] ?] eqn:E;
      [ rewrite (try_except_bind_ok _ _ _ _ _ _ E) in H; cbv beta in H
      | rewrite (try_except_bind_err _ _ _ _ _ _ E) in H;
        left; unfold bind, log_error, ret in H; injection H as <- <-;
        split; [reflexivity | eexists; apply last_snoc] ]
  end.

(** A pandas operation that returned inside a run. *)
Ltac lifted :=
  repeat match goal with
         | E : lift ?r ?t = (Ok ?x, ?t') |- _ =>
             assert (r = Ok x) by (unfold lift in E; congruence); clear E
         end.

Lemma fetch_data_tables (self : ASADataProcessor) (competition : string)
    (t t' : list event) (r : result (gmap string DataFrame)) :
  fetch_data self competition t = (r, t') ->
  (r = Ok ∅ /\ exists e, last t' = Some (Logged general_error_message e)) \/
  exists games players field_players goalkeepers teams stadium mgrs refs
         teams0 goalkeepers0 goalkeepers1,
    r = Ok (tables games players field_players goalkeepers teams stadium mgrs refs) /\
    pd.select teams0 TEAM_COLUMNS = Ok teams /\
    split_players players = Ok (field_players, goalkeepers1) /\
    pd.select goalkeepers0 GOALKEEPER_COLUMNS = Ok goalkeepers.
Proof.
  intros H. unfold fetch_data in H. cbv zeta in H.
  do 33 traced_statement H.
  right. unfold try_except, ret in H. injection H as <- <-.
  lifted.
  match goal with
  | Hs : split_players _ = Ok ?s |- _ => destruct s as [fp gk1]
  end.
  do 11 eexists. split; [reflexivity|]. eauto.
Qed.

Lemma tables_lookup (games players field_players goalkeepers teams stadium mgrs refs : DataFrame) :
  let data := tables games players field_players goalkeepers teams stadium mgrs refs in
  data !! "players" = Some players /\
  data !! "field_players" = Some field_players /\
  data !! "goalkeepers" = Some goalkeepers /\
  data !! "teams" = Some teams.
Proof.
  cbv zeta; unfold tables; repeat split;
    repeat first [ rewrite lookup_insert_eq; reflexivity
                 | rewrite lookup_insert_ne by discriminate ].
Qed.

(** A result that is not empty is made of eight tables. *)
Lemma mapping_tables (self : ASADataProcessor) (competition : string) (t : list event) :
  mapping (fetch_data self competition t) <> ∅ ->
  exists games players field_players goalkeepers teams stadium mgrs refs
         teams0 goalkeepers0 goalkeepers1,
    mapping (fetch_data self competition t) =
      tables games players field_players goalkeepers teams stadium mgrs refs /\
    pd.select teams0 TEAM_COLUMNS = Ok teams /\
    split_players players = Ok (field_players, goalkeepers1) /\
    pd.select goalkeepers0 GOALKEEPER_COLUMNS = Ok goalkeepers.
Proof.
  destruct (fetch_data self competition t) as [r t'] eqn:H. intros Hne.
  apply fetch_data_tables in H as [[-> _] | H]; [now contradict Hne|].
  destruct H as (games & players & fp & gk & teams & stadium & mgrs & refs & teams0 & gk0
                 & gk1 & -> & H).
  now exists games, players, fp, gk, teams, stadium, mgrs, refs, teams0, gk0, gk1.
Qed.

(** X6.  [fetch_data] never raises.  The mapping it returns is either
    empty, and then the last event is the general error it logged, or has
    exactly the eight keys "games", "players", "field_players",
    "goalkeepers", "teams", "stadium", "mgrs" and "refs". *)
Theorem fetch_data_outcome (self : ASADataProcessor) (competition : string)
    (t : list event) :
  exists (data : gmap string DataFrame) (t' : list event),
    fetch_data self competition t = (Ok data, t') /\
    ((data = ∅ /\ exists e, last t' = Some (Logged general_error_message e)) \/
     dom data = list_to_set result_keys).
Proof.
  destruct (fetch_data self competition t) as [r t'] eqn:H.
  apply fetch_data_tables in H as [[-> He] | H].
  - exists ∅, t'. split; [reflexivity|]. now left.
  - destruct H as (games & players & fp & gk & teams & stadium & mgrs & refs & _ & _ & _
                   & -> & _).
    eexists _, t'. split; [reflexivity|]. right.
    unfold tables. rewrite !dom_insert_L, dom_empty_L. reflexivity.
Qed.

Lemma positions_from_elem (n : nat) (c : string) (cs : list string) (i : nat) :
  In i (positions_from n c cs) ->
  exists k, i = (n + k)%nat /\ (k < length cs)%nat /\ nth k cs "" = c.
Proof.
  revert n. induction cs as [|c' cs IH]; intros n; cbn; [tauto|].
  destruct (String.eqb c c') eqn:E.
  - intros [<- | H].
    + exists 0%nat. apply String.eqb_eq in E. repeat split; [lia | lia | now symmetry].
    + apply IH in H as (k & -> & Hk & Hn). exists (S k). repeat split; [lia | lia | exact Hn].
  - intros H. apply IH in H as (k & -> & Hk & Hn).
    exists (S k). repeat split; [lia | lia | exact Hn].
Qed.

Lemma positions_from_index_elem (n : nat) (c : string) (cs : list string) (k : nat) :
  index_of c cs = Some k -> In (n + k)%nat (positions_from n c cs).
Proof.
  revert n k. induction cs as [|c' cs IH]; intros n k; cbn; [discriminate|].
  destruct (String.eqb c c').
  - intros [= <-]. left. lia.
  - destruct (index_of c cs) as [k'|]; cbn; [|discriminate].
    intros [= <-]. replace (n + S k')%nat with (S n + k')%nat by lia. now apply IH.
Qed.

Lemma label_nth (cols : list Column) (i : nat) :
  label (nth i cols no_column) = nth i (map label cols) "".
Proof. now rewrite <- (map_nth label). Qed.

(** The labels of [df[[c1, ..., cn]]] are [c1, ..., cn], each as often as
    it labels a column of [df]. *)
Lemma select_labels (df out : DataFrame) (cs : list string) :
  pd.select df cs = Ok out ->
  labels out = flat_map (fun c => map (fun _ => c) (positions c (labels df))) cs /\
  Forall (fun c => positions c (labels df) <> []) cs.
Proof.
  unfold pd.select.
  destruct (forallb (fun c => mem c (labels df)) cs) eqn:Hall; [|discriminate].
  intros [= <-]. unfold labels at 1. cbn [columns]. rewrite map_map. split.
  - clear Hall. induction cs as [|c cs IH]; [reflexivity|].
    cbn. rewrite map_app, IH. f_equal.
    apply map_ext_in. intros i Hi. rewrite label_nth.
    apply positions_from_elem in Hi as (k & -> & _ & Hk). exact Hk.
  - apply Forall_forall. intros c Hc. rewrite forallb_forall in Hall.
    apply list_elem_of_In, Hall, mem_index_of in Hc as [k Hk].
    apply (positions_from_index_elem 0) in Hk. intros E. unfold positions in E.
    now rewrite E in Hk.
Qed.

Lemma select_labels_elem (df out : DataFrame) (cs : list string) (c : string) :
  pd.select df cs = Ok out -> c ∈ labels out <-> c ∈ cs.
Proof.
  intros (-> & Hne)%select_labels. rewrite !list_elem_of_In, in_flat_map. split.
  - intros (c' & Hc' & Hin). apply in_map_iff in Hin as (i & <- & _). exact Hc'.
  - intros Hc. exists c. split; [exact Hc|].
    rewrite Forall_forall in Hne. apply list_elem_of_In, Hne in Hc.
    destruct (positions c (labels df)) as [|i ks]; [congruence|]. now left.
Qed.

(** X7.  In a result that is not empty the labels of the teams table are
    exactly the labels of the teams selection, and the labels of the
    goalkeepers table exactly those of the goalkeepers selection. *)
Theorem fetch_data_columns (self : ASADataProcessor) (competition : string)
    (t : list event) :
  mapping (fetch_data self competition t) <> ∅ ->
  exists teams goalkeepers : DataFrame,
    mapping (fetch_data self competition t) !! "teams" = Some teams /\
    mapping (fetch_data self competition t) !! "goalkeepers" = Some goalkeepers /\
    (forall c, c ∈ labels teams <-> c ∈ TEAM_COLUMNS) /\
    (forall c, c ∈ labels goalkeepers <-> c ∈ GOALKEEPER_COLUMNS).
Proof.
  intros Hne.
  destruct (mapping_tables _ _ _ Hne)
    as (games & players & fp & gk & teams & stadium & mgrs & refs & teams0 & gk0
        & gk1 & -> & Ht & _ & Hg).
  exists teams, gk.
  split; [apply tables_lookup|]. split; [apply tables_lookup|].
  split; intros c.
  - exact (select_labels_elem _ _ _ c Ht).
  - exact (select_labels_elem _ _ _ c Hg).
Qed.

Lemma fetch_data_columns_witness :
  exists teams goalkeepers : DataFrame,
    mapping (fetch_data Sample.processor COMPETITION []) !! "teams" = Some teams /\
    mapping (fetch_data Sample.processor COMPETITION []) !! "goalkeepers"
      = Some goalkeepers /\
    (forall c, c ∈ labels teams <-> c ∈ TEAM_COLUMNS) /\
    (forall c, c ∈ labels goalkeepers <-> c ∈ GOALKEEPER_COLUMNS).
Proof.
  apply (fetch_data_columns Sample.processor COMPETITION []).
  intros H. apply (f_equal (fun m : gmap string DataFrame => size m)) in H.
  vm_compute in H. discriminate.
Defined.

Lemma goalkeeper_columns_split :
  GOALKEEPER_COLUMNS =
    take 16 GOALKEEPER_COLUMNS ++ ["minutes_played"] ++
    take 23 (drop 17 GOALKEEPER_COLUMNS) ++ ["minutes_played"] ++
    drop 41 GOALKEEPER_COLUMNS.
Proof. vm_compute; reflexivity. Qed.

(** X8.  The goalkeepers selection names "minutes_played" twice, so in a
    result that is not empty the goalkeepers table has two columns (at
    least) labelled "minutes_played". *)
Theorem goalkeepers_minutes_played_twice (self : ASADataProcessor) (competition : string)
    (t : list event) :
  mapping (fetch_data self competition t) <> ∅ ->
  exists (goalkeepers : DataFrame) (l1 l2 l3 : list string),
    mapping (fetch_data self competition t) !! "goalkeepers" = Some goalkeepers /\
    labels goalkeepers = l1 ++ "minutes_played" :: l2 ++ "minutes_played" :: l3.
Proof.
  intros Hne.
  destruct (mapping_tables _ _ _ Hne)
    as (games & players & fp & gk & teams & stadium & mgrs & refs & teams0 & gk0
        & gk1 & -> & _ & _ & Hg).
  apply select_labels in Hg as [Hl Hne'].
  rewrite goalkeeper_columns_split in Hl, Hne'.
  set (f := fun c : string => map (fun _ : nat => c) (positions c (labels gk0))) in Hl.
  remember (take 16 GOALKEEPER_COLUMNS) as pre eqn:Epre. clear Epre.
  remember (take 23 (drop 17 GOALKEEPER_COLUMNS)) as mid eqn:Emid. clear Emid.
  remember (drop 41 GOALKEEPER_COLUMNS) as post eqn:Epost. clear Epost.
  rewrite !flat_map_app in Hl.
  rewrite !Forall_app in Hne'. destruct Hne' as (_ & Hmp & _).
  apply Forall_cons in Hmp as [Hmp _].
  cbn [flat_map] in Hl. rewrite !app_nil_r in Hl. unfold f at 2 4 in Hl.
  destruct (positions "minutes_played" (labels gk0)) as [|i ks]; [congruence|].
  cbn [map] in Hl.
  exists gk, (flat_map f pre),
    (map (fun _ => "minutes_played") ks ++ flat_map f mid),
    (map (fun _ => "minutes_played") ks ++ flat_map f post).
  split; [apply tables_lookup|].
  rewrite Hl. cbn [app]. rewrite <- !app_assoc. reflexivity.
Qed.

Lemma goalkeepers_minutes_played_twice_witness :
  exists (goalkeepers : DataFrame) (l1 l2 l3 : list string),
    mapping (fetch_data Sample.processor COMPETITION []) !! "goalkeepers"
      = Some goalkeepers /\
    labels goalkeepers = l1 ++ "minutes_played" :: l2 ++ "minutes_played" :: l3.
Proof.
  apply (goalkeepers_minutes_played_twice Sample.processor COMPETITION []).
  intros H. apply (f_equal (fun m : gmap string DataFrame => size m)) in H.
  vm_compute in H. discriminate.
Defined.

(** X9.  In a result that is not empty the field players are the rows of
    the returned players table whose primary broad position is not "GK", in
    the order of that table and under its columns. *)
Theorem fetch_data_field_players (self : ASADataProcessor) (competition : string)
    (t : list event) :
  mapping (fetch_data self competition t) <> ∅ ->
  exists (players field_players : DataFrame) (i : nat),
    mapping (fetch_data self competition t) !! "players" = Some players /\
    mapping (fetch_data self competition t) !! "field_players" = Some field_players /\
    index_of "primary_broad_position" (labels players) = Some i /\
    columns field_players = columns players /\
    rows field_players = List.filter (fun r => negb (is_goalkeeper i r)) (rows players).
Proof.
  intros Hne.
  destruct (mapping_tables _ _ _ Hne)
    as (games & players & fp & gk & teams & stadium & mgrs & refs & teams0 & gk0
        & gk1 & -> & _ & Hs & _).
  unfold split_players, pd.getitem in Hs.
  destruct (index_of "primary_broad_position" (labels players)) as [i|] eqn:Hi;
    [|discriminate].
  cbn [rbind] in Hs. injection Hs as <- _.
  eexists players, _, i.
  split; [apply tables_lookup|]. split; [apply tables_lookup|].
  split; [exact Hi|]. split; [reflexivity|].
  unfold pd.getitem_mask, pd.ne. cbn [rows values]. rewrite map_map.
  apply (keep_map_filter (fun r => negb (is_goalkeeper i r))).
Qed.

Lemma fetch_data_field_players_witness :
  exists (players field_players : DataFrame) (i : nat),
    mapping (fetch_data Sample.processor COMPETITION []) !! "players" = Some players /\
    mapping (fetch_data Sample.processor COMPETITION []) !! "field_players"
      = Some field_players /\
    index_of "primary_broad_position" (labels players) = Some i /\
    columns field_players = columns players /\
    rows field_players = List.filter (fun r => negb (is_goalkeeper i r)) (rows players).
Proof.
  apply (fetch_data_field_players Sample.processor COMPETITION []).
  intros H. apply (f_equal (fun m : gmap string DataFrame => size m)) in H.
  vm_compute in H. discriminate.
Defined.

(** ** Fallback tables *)

(** A merge whose left table has no columns raises. *)
Lemma merge_empty_left (right : DataFrame) (h : pd.how) (left_on right_on : string)
    (suffixes : string * string) :
  exists e, pd.merge pd.DataFrame right h left_on right_on suffixes = Err e.
Proof.
  unfold pd.merge. cbn.
  destruct (positions right_on (labels right)) as [|j [|j' js]]; cbn; eauto.
Qed.

(** Without a players table the loop over the statistics logs and leaves
    the empty table. *)
Lemma merge_players_empty (competition : string) (dfs : list DataFrame) (t : list event) :
  exists t', for_each dfs (merge_player_statistics competition) pd.DataFrame t
             = (Ok pd.DataFrame, t').
Proof.
  revert t. induction dfs as [|df dfs IH]; intros t; cbn [for_each].
  - now eexists.
  - unfold bind at 1, merge_player_statistics, guarded_steps, run_steps.
    destruct (merge_empty_left df pd.how_left "player_id" "player_id" ("", "_dup"))
      as [e ->].
    unfold bind, log_error, ret. apply IH.
Qed.

(** X10.  The fallback of a failed read of the players, of the managers or
    of the referees is a table without columns, and the conversion of one of
    its columns to a category that follows is not guarded: the run ends in
    the outer handler and returns the empty mapping. *)
Theorem fetch_data_without_dimension (self : ASADataProcessor) (competition : string)
    (e : exn) (t : list event) :
  asa.players (client self) = Err e \/
  asa.managers (client self) = Err e \/
  asa.get_referees (client self) COMPETITION = Err e ->
  (fetch_data self competition t).1 = Ok ∅.
Proof.
  intros [He | [He | He]]; unfold fetch_data; cbv zeta.
  - destruct (or_empty_filter_competition
                ("Error fetching players data for " +:+ COMPETITION) "players"
                (asa.players (client self)) COMPETITION t)
      as (players & evs & HP & _ & HPe).
    destruct (HPe _ He) as [-> ->].
    rewrite (try_except_bind_ok _ _ _ _ _ _ HP).
    do 15 next_statement.
    match goal with
    | |- (try_except (bind (for_each ?dfs _ _) _) _ ?t0).1 = _ =>
        destruct (merge_players_empty COMPETITION dfs t0) as [t' Hm]
    end.
    rewrite (try_except_bind_ok _ _ _ _ _ _ Hm).
    match goal with
    | |- (try_except (bind ?m _) _ ?t0).1 = _ =>
        rewrite (try_except_bind_err m _ _ t0 t0 KeyError eq_refl)
    end.
    reflexivity.
  - do 7 next_statement.
    match goal with
    | |- (try_except (bind (or_empty ?msg (filter_competition ?w ?a ?c)) _) _ ?t0).1 = _ =>
        destruct (or_empty_filter_competition msg w a c t0) as (mgrs & evs & HM & _ & HMe)
    end.
    destruct (HMe _ He) as [-> ->].
    rewrite (try_except_bind_ok _ _ _ _ _ _ HM).
    match goal with
    | |- (try_except (bind ?m _) _ ?t0).1 = _ =>
        rewrite (try_except_bind_err m _ _ t0 t0 KeyError eq_refl)
    end.
    reflexivity.
  - do 9 next_statement.
    match goal with
    | |- (try_except (bind ?m _) _ ?t0).1 = _ =>
        assert (HR : exists t', m t0 = (Ok pd.DataFrame, t'))
    end.
    { unfold or_empty, try_except, request. rewrite He.
      unfold bind, log_error, ret. eauto. }
    destruct HR as [t' HR]. rewrite (try_except_bind_ok _ _ _ _ _ _ HR).
    match goal with
    | |- (try_except (bind ?m _) _ ?t0).1 = _ =>
        rewrite (try_except_bind_err m _ _ t0 t0 KeyError eq_refl)
    end.
    reflexivity.
Qed.

Lemma fetch_data_without_dimension_witness :
  (fetch_data without_managers COMPETITION []).1 = Ok ∅.
Proof.
  apply (fetch_data_without_dimension without_managers COMPETITION ClientError []).
  right. left. reflexivity.
Defined.

(** A merge with the table without columns raises. *)
Lemma merge_empty_right (left : DataFrame) (h : pd.how) (left_on right_on : string)
    (suffixes : string * string) :
  pd.merge left pd.DataFrame h left_on right_on suffixes = Err KeyError.
Proof. reflexivity. Qed.

(** The loop over the goalkeeper statistics raises when one of the two
    tables is the fallback table. *)
Lemma merge_goalkeepers_empty (gk_xG gk_G_added goalkeepers : DataFrame) (t : list event) :
  gk_xG = pd.DataFrame \/ gk_G_added = pd.DataFrame ->
  exists e t',
    for_each [gk_xG; gk_G_added] merge_goalkeeper_statistics goalkeepers t = (Err e, t').
Proof.
  intros [-> | ->]; cbn [for_each]; unfold bind at 1.
  - unfold merge_goalkeeper_statistics at 1. unfold bind at 1, lift at 1.
    rewrite merge_empty_right. eauto.
  - destruct (merge_goalkeeper_statistics gk_xG goalkeepers t) as [[g|e] t1]; [|eauto].
    unfold bind at 1. unfold merge_goalkeeper_statistics at 1. unfold bind at 1, lift at 1.
    rewrite merge_empty_right. eauto.
Qed.

(** X11.  The fallback of a failed request for the expected goals or for
    the goals added of the goalkeepers is a table without columns, and the
    loop that merges the two tables into the goalkeepers is not guarded: the
    merge raises, the run ends in the outer handler and returns the empty
    mapping. *)
Theorem fetch_data_without_goalkeeper_statistics (self : ASADataProcessor)
    (competition : string) (e : exn) (t : list event) :
  asa.get_goalkeeper_xgoals (client self) COMPETITION = Err e \/
  asa.get_goalkeeper_goals_added (client self) COMPETITION = Err e ->
  (fetch_data self competition t).1 = Ok ∅.
Proof.
  intros He. unfold fetch_data; cbv zeta.
  do 11 next_statement.
  destruct He as [He | He].
  - match goal with
    | |- (try_except (bind ?m _) _ ?t0).1 = _ =>
        assert (HR : exists t', m t0 = (Ok pd.DataFrame, t'))
    end.
    { unfold or_empty, try_except, request. unfold bind at 1. rewrite He.
      unfold bind, log_error, ret. eauto. }
    destruct HR as [t' HR]. rewrite (try_except_bind_ok _ _ _ _ _ _ HR). cbv beta.
    do 13 next_statement.
    match goal with
    | |- (try_except (bind (for_each [?x; ?y] _ ?g) _) _ ?t0).1 = _ =>
        destruct (merge_goalkeepers_empty x y g t0 (or_introl eq_refl)) as (e' & t'' & Hm)
    end.
    rewrite (try_except_bind_err _ _ _ _ _ _ Hm). reflexivity.
  - next_statement.
    match goal with
    | |- (try_except (bind ?m _) _ ?t0).1 = _ =>
        assert (HR : exists t', m t0 = (Ok pd.DataFrame, t'))
    end.
    { unfold or_empty, try_except, request. rewrite He.
      unfold bind, log_error, ret. eauto. }
    destruct HR as [t' HR]. rewrite (try_except_bind_ok _ _ _ _ _ _ HR). cbv beta.
    do 12 next_statement.
    match goal with
    | |- (try_except (bind (for_each [?x; ?y] _ ?g) _) _ ?t0).1 = _ =>
        destruct (merge_goalkeepers_empty x y g t0 (or_intror eq_refl)) as (e' & t'' & Hm)
    end.
    rewrite (try_except_bind_err _ _ _ _ _ _ Hm). reflexivity.
Qed.

Lemma fetch_data_without_goalkeeper_statistics_witness :
  (fetch_data without_goalkeeper_goals_added COMPETITION []).1 = Ok ∅.
Proof.
  apply (fetch_data_without_goalkeeper_statistics without_goalkeeper_goals_added
           COMPETITION ClientError []).
  right. reflexivity.
Defined.

(** ** Missing scores *)

(** X12.  A missing score compares neither greater nor less: when a score
    is missing and the other one is missing or a number, the result is
    "draw" and both sides get one point. *)
Theorem calculate_result_missing_score (row : pd.Row) (home_score away_score : value) :
  pd.row_getitem row "home_score" = Ok home_score ->
  pd.row_getitem row "away_score" = Ok away_score ->
  (home_score = VNaN /\ (away_score = VNaN \/ exists z, away_score = VInt z)) \/
  (away_score = VNaN /\ exists z, home_score = VInt z) ->
  calculate_result row = Ok "draw" /\
  calculate_points (VStr "draw") = 1 /\
  calculate_points (VStr (away_result (VStr "draw"))) = 1.
Proof.
  intros Hh Ha H. unfold calculate_result. rewrite Hh, Ha. cbn [rbind].
  destruct H as [[-> [-> | [z ->]]] | [-> [z ->]]]; repeat split.
Qed.

Lemma calculate_result_missing_score_witness :
  calculate_result [("home_score", VNaN); ("away_score", VNaN)] = Ok "draw".
Proof.
  apply (calculate_result_missing_score
           [("home_score", VNaN); ("away_score", VNaN)] VNaN VNaN eq_refl eq_refl).
  left. split; [reflexivity|]. now left.
Defined.

(** X13.  The enrichment of the games stops at its first statement when
    the stadium table lacks "stadium_id" or "stadium_name" (as the fallback
    table does): the games stay as they were requested and a [KeyError]
    reaches the handler. *)
Theorem enrich_games_without_stadium_columns (stadium refs teams mgrs games : DataFrame) :
  mem STADIUM_ID (labels stadium) = false \/ mem "stadium_name" (labels stadium) = false ->
  run_steps (enrich_games stadium refs teams mgrs) games = (games, Some KeyError).
Proof.
  intros H. unfold enrich_games, run_steps, add_stadium_names, pd.select. cbn [forallb].
  destruct H as [-> | ->]; [reflexivity|].
  now destruct (mem STADIUM_ID (labels stadium)).
Qed.

Lemma enrich_games_without_stadium_columns_witness :
  run_steps (enrich_games pd.DataFrame Sample.referees Sample.uslc_teams Sample.managers)
            Sample.games = (Sample.games, Some KeyError).
Proof.
  apply (enrich_games_without_stadium_columns pd.DataFrame).
  left. reflexivity.
Defined.

(** ** The statistics of the players *)

Lemma select_own_labels (df : DataFrame) (p : string -> bool) :
  exists out, pd.select df (List.filter p (labels df)) = Ok out.
Proof.
  unfold pd.select.
  assert (forallb (fun c => mem c (labels df)) (List.filter p (labels df)) = true) as ->;
    [|eauto].
  apply forallb_forall. intros c [Hc _]%filter_In. unfold mem.
  apply existsb_exists. exists c. split; [exact Hc | apply String.eqb_refl].
Qed.

Lemma select_rows_length (df out : DataFrame) (cs : list string) :
  pd.select df cs = Ok out -> length (rows out) = length (rows df).
Proof.
  unfold pd.select. destruct (forallb _ _); [|discriminate].
  intros [= <-]. apply length_map.
Qed.

Lemma merge_player_statistics_spec (competition : string) (df players : DataFrame)
    (t : list event) :
  exists out t',
    merge_player_statistics competition df players t = (Ok out, t') /\
    (length (rows players) <= length (rows out))%nat /\
    (no_duplicate_marker players -> no_duplicate_marker out).
Proof.
  unfold merge_player_statistics, guarded_steps, run_steps.
  destruct (pd.merge players df _ _ _ _) as [m|e] eqn:Hm.
  - destruct (select_own_labels m (fun c => negb (endswith c "_dup"))) as [out Hs].
    rewrite Hs. unfold ret. exists out, t. split; [reflexivity|]. split.
    + apply left_merge_keeps_rows in Hm as [Hm _].
      apply select_rows_length in Hs. lia.
    + intros _. apply Forall_forall. intros c Hc.
      apply (select_labels_elem _ _ _ c Hs) in Hc.
      apply list_elem_of_In, filter_In in Hc as [_ Hc]. now apply negb_true_iff.
  - unfold bind, log_error, ret. eexists players, _. split; [reflexivity|].
    split; [lia | auto].
Qed.

(** X14.  When no label of the players ends with "_dup", the loop that
    merges the player statistics returns (each of its rounds is guarded),
    loses no row of the players, and returns a table in which no label ends
    with "_dup". *)
Theorem player_merges_leave_no_duplicates (competition : string) (dfs : list DataFrame)
    (players : DataFrame) (t : list event) :
  no_duplicate_marker players ->
  exists out t',
    for_each dfs (merge_player_statistics competition) players t = (Ok out, t') /\
    (length (rows players) <= length (rows out))%nat /\
    no_duplicate_marker out.
Proof.
  revert players t. induction dfs as [|df dfs IH]; intros players t Hp; cbn [for_each].
  - exists players, t. split; [reflexivity|]. split; [lia | exact Hp].
  - destruct (merge_player_statistics_spec competition df players t)
      as (p1 & t1 & H1 & Hlen & Hno).
    unfold bind at 1. rewrite H1.
    destruct (IH p1 t1 (Hno Hp)) as (out & t' & H & Hlen' & Hout).
    exists out, t'. split; [exact H|]. split; [lia | exact Hout].
Qed.

Lemma player_merges_leave_no_duplicates_witness :
  exists out t',
    for_each [Sample.player_goals_added; Sample.player_xgoals; Sample.player_xpass]
      (merge_player_statistics COMPETITION) Sample.players [] = (Ok out, t') /\
    (length (rows Sample.players) <= length (rows out))%nat /\
    no_duplicate_marker out.
Proof.
  apply (player_merges_leave_no_duplicates COMPETITION
           [Sample.player_goals_added; Sample.player_xgoals; Sample.player_xpass]
           Sample.players []).
  unfold no_duplicate_marker. repeat (apply Forall_cons_2; [reflexivity|]).
  apply Forall_nil_2.
Defined.

(** ** Exploding before [add_team_names] *)

Lemma cell_list_lt (i : nat) (r : list value) (l : list value) :
  cell i r = VList l -> (i < length r)%nat.
Proof.
  unfold cell. intros H. destruct (Nat.lt_ge_cases i (length r)) as [Hlt | Hge];
    [exact Hlt|].
  rewrite nth_overflow in H by exact Hge. discriminate.
Qed.

Lemma exploded_cells (i : nat) (r : list value) (l : list value) :
  (i < length r)%nat -> map (cell i) (map (fun x => <[i := x]> r) l) = l.
Proof.
  intros H. rewrite map_map. induction l as [|x l IH]; [reflexivity|].
  cbn. now rewrite (cell_insert i x r H), IH.
Qed.

Lemma exploded_no_list (i : nat) (rs : list (list value)) :
  flat_cells (map (cell i) rs) = true ->
  existsb is_list (List.filter notna (map (cell i) (flat_map (pd.explode_row i) rs)))
  = false.
Proof.
  induction rs as [|r rs IH]; [reflexivity|].
  cbn [map flat_cells forallb]. intros [Hr Hrs]%andb_true_iff.
  cbn [flat_map]. rewrite map_app, List.filter_app, existsb_app, (IH Hrs), orb_false_r.
  unfold pd.explode_row. destruct (cell i r) as [| | |[|x l]] eqn:E.
  - cbn. rewrite E. reflexivity.
  - cbn. rewrite E. reflexivity.
  - cbn. rewrite E. reflexivity.
  - cbn [map]. rewrite (cell_insert i VNaN r (cell_list_lt _ _ _ E)). reflexivity.
  - rewrite (exploded_cells i r (x :: l) (cell_list_lt _ _ _ E)).
    apply negb_true_iff in Hr. clear -Hr.
    induction (x :: l) as [|y ys IH]; [reflexivity|].
    cbn in Hr. apply orb_false_iff in Hr as [Hy Hys].
    cbn. destruct y; cbn in *; try discriminate; auto.
Qed.

Lemma explode_scalars (i : nat) (rs : list (list value)) :
  existsb is_list (List.filter notna (map (cell i) rs)) = false ->
  flat_map (pd.explode_row i) rs = rs.
Proof.
  induction rs as [|r rs IH]; [reflexivity|]. cbn [map flat_map].
  unfold pd.explode_row at 1.
  destruct (cell i r) as [| | |l] eqn:E; cbn; try (intros H; now rewrite (IH H)).
  discriminate.
Qed.

(** X15.  [add_team_names] explodes "team_id" itself, so exploding the
    column before the call changes nothing as long as no list of the column
    holds a list. *)
Theorem add_team_names_after_explode (df exploded teams_df : DataFrame) :
  flat_column df TEAM_ID = true ->
  pd.explode df TEAM_ID = Ok exploded ->
  add_team_names exploded teams_df = add_team_names df teams_df.
Proof.
  intros Hflat He. pose proof He as He0. unfold pd.explode in He.
  destruct (unique (labels df)); [|discriminate]. cbn [negb] in He.
  destruct (index_of TEAM_ID (labels df)) as [i|] eqn:Hi; [|discriminate].
  unfold flat_column, pd.getitem in Hflat. rewrite Hi in Hflat. cbn [values] in Hflat.
  destruct (categorical (nth i (columns df) no_column)); [now injection He as <-|].
  injection He as <-.
  unfold add_team_names at 1. unfold labels at 1, pd.getitem at 1, labels at 1.
  cbn [columns]. fold (labels df). rewrite (index_of_mem _ _ _ Hi), Hi.
  cbn [rbind values rows]. rewrite (exploded_no_list _ _ Hflat).
  unfold add_team_names. rewrite (index_of_mem _ _ _ Hi). unfold pd.getitem at 1.
  rewrite Hi. cbn [rbind values].
  destruct (existsb is_list (List.filter notna (map (cell i) (rows df)))) eqn:Hl.
  - rewrite He0. cbn [rbind].
    destruct (pd.select teams_df [TEAM_ID; "team_name"]) as [names|]; [|reflexivity].
    cbn [rbind]. now destruct (pd.merge _ names _ _ _ _).
  - rewrite (explode_scalars _ _ Hl). now destruct df.
Qed.

Lemma add_team_names_after_explode_witness :
  add_team_names (returned (pd.explode Sample.two_team_player TEAM_ID)) Sample.uslc_teams =
  add_team_names Sample.two_team_player Sample.uslc_teams.
Proof.
  exact (add_team_names_after_explode Sample.two_team_player
           (returned (pd.explode Sample.two_team_player TEAM_ID)) Sample.uslc_teams
           eq_refl eq_refl).
Defined.
